(** * rhythm-app: the cluster-to-state classification pipeline

    A shallow embedding of [rhythm_mapping.py] (the online classifier), of the
    feature selection and imputation steps of [unsupervised_analysis.py] (the
    offline trainer) and of the result dispatch of [app.py] (the dashboard),
    with the properties the specification states about them.

    The classifier's numbers are exact rationals ([Q]); the trainer's frame
    is over any type of numbers, the library's column mean being a parameter,
    and over binary64 floats where rounding matters; Python exceptions are
    values of an error monad; dictionaries are [gmap]s. *)

From Stdlib Require Import QArith Qabs.
From Stdlib Require Import Floats.
From stdpp Require Import gmap strings list fin_maps.
From stdpp Require Import pretty.

Local Open Scope Z_scope.
Local Open Scope string_scope.

(** ** Python exceptions *)

Module Py.

(** The exception classes the three files name or can meet.  Every one of
    them derives from [Exception]; [OtherError] stands for any further
    subclass of [Exception] a library call may raise ([ValueError],
    [TypeError], [IndexError], [AttributeError], an unpickling error...). *)
Inductive exn_class : Set :=
  | FileNotFoundError
  | NotFittedError
  | KeyError
  | OtherError.

Record exn : Set := mk_exn { exn_cls : exn_class; exn_msg : string }.

Inductive result (A : Type) : Type :=
  | Ok (a : A)
  | Raise (e : exn).
Arguments Ok {A} a.
Arguments Raise {A} e.

Definition bind {A B : Type} (r : result A) (k : A -> result B) : result B :=
  match r with
  | Ok a => k a
  | Raise e => Raise e
  end.

End Py.

Import Py.

(** [result] is a monad; [x ← c; k] runs [c] and stops at its exception. *)
#[global] Instance result_ret : MRet result := @Ok.
#[global] Instance result_bind : MBind result := fun A B k r => Py.bind r k.

(** ** Numeric arrays *)

(** A two-dimensional NumPy array of numbers, row by row. *)
Abbreviation array2d := (list (list Q)).

(** ** The persisted artifacts, as the classifier sees them *)

(** [joblib.load] hands back an object; the classifier only ever calls
    [transform] on the scaler and [predict] on the cluster model.  Either
    call may raise. *)
Record Scaler : Type := { transform : array2d -> result array2d }.
Record ClusterModel : Type := { predict : array2d -> result (list Z) }.

(** ** Module [rhythm_mapping] *)

Module rhythm_mapping.

(** The two module-level globals. *)
Record Globals : Type := {
  KMEANS_MODEL : option ClusterModel;
  SCALER : option Scaler
}.

(** What each of the two [joblib.load] calls does in the environment the
    module is imported in. *)
Record Storage : Type := {
  load_kmeans_model : result ClusterModel;  (* 'rhythm_kmeans_model.pkl' *)
  load_scaler : result Scaler               (* 'rhythm_scaler.pkl' *)
}.

(** The [try] block at import time: both loads in sequence. *)
Definition load_both (fs : Storage) : result (ClusterModel * Scaler) :=
  km ← load_kmeans_model fs;
  sc ← load_scaler fs;
  mret (km, sc).

(** Import of the module: [except FileNotFoundError] resets both globals to
    [None]; any other exception leaves the [try] statement and aborts the
    import. *)
Definition import_module (fs : Storage) : result Globals :=
  match load_both fs with
  | Ok (km, sc) => Ok {| KMEANS_MODEL := Some km; SCALER := Some sc |}
  | Raise e =>
      match exn_cls e with
      | FileNotFoundError => Ok {| KMEANS_MODEL := None; SCALER := None |}
      | _ => Raise e
      end
  end.

(** The dictionary literal, item by item. *)
Definition CLUSTER_TO_STATE_items : list (Z * string) :=
  [ (0, "Burnout State");
    (1, "Flow State");
    (2, "Balanced State");
    (3, "Fatigue State");
    (4, "Digital Drift State") ].

Definition CLUSTER_TO_STATE : gmap Z string :=
  list_to_map CLUSTER_TO_STATE_items.

(** [np.array([[screen_time, sleep_hours, productivity_score]])] *)
Definition user_input (sleep_hours screen_time productivity_score : Q) : array2d :=
  [ [screen_time; sleep_hours; productivity_score] ].

(** [a[0]] on a one-dimensional array. *)
Definition first_item (a : list Z) : result Z :=
  match a with
  | i :: _ => Ok i
  | [] => Raise (mk_exn OtherError
                   "index 0 is out of bounds for axis 0 with size 0")
  end.

(** The body of the [try] statement of [classify_rhythm_state]. *)
Definition classify_body (km : ClusterModel) (sc : Scaler)
    (sleep_hours screen_time productivity_score : Q) : result string :=
  let ui := user_input sleep_hours screen_time productivity_score in
  scaled_input ← transform sc ui;
  labels ← predict km scaled_input;
  cluster_index ← first_item labels;
  mret (default "Unknown State" (CLUSTER_TO_STATE !! cluster_index)).

(** The two [except] clauses, tried in order. *)
Definition classify_handlers (e : exn) : result string :=
  match exn_cls e with
  | NotFittedError => Ok "Model Not Fitted Error"
  | _ => Ok ("Classification Error: " ++ exn_msg e)
  end.

Definition classify_rhythm_state (g : Globals)
    (sleep_hours screen_time productivity_score : Q) : result string :=
  match KMEANS_MODEL g, SCALER g with
  | Some km, Some sc =>
      match classify_body km sc sleep_hours screen_time productivity_score with
      | Ok s => Ok s
      | Raise e => classify_handlers e
      end
  | _, _ => Ok "Classification Error"
  end.

End rhythm_mapping.

(** ** Module [rhythm_mapping], the state of the process made explicit *)

(** The embedding above takes [transform] and [predict] to be functions of
    their argument.  Python gives no such guarantee: a method may read and
    change the attributes of its object, the random generators, any global.
    Here a call runs in a world, which stands for all of that, and leaves a
    world; the classifier is written out again over such calls, statement by
    statement. *)
Module stateful.

Section world.

Variable World : Type.

(** A computation: the exception or the value, and the world it leaves.
    What was changed before an exception was raised stays changed. *)
Definition Call (A : Type) : Type := World -> result A * World.

Definition call_ret {A : Type} (a : A) : Call A := fun w => (Ok a, w).

Definition call_bind {A B : Type} (c : Call A) (k : A -> Call B) : Call B :=
  fun w =>
    match c w with
    | (Ok a, w') => k a w'
    | (Raise e, w') => (Raise e, w')
    end.

(** A step that touches nothing. *)
Definition pure_step {A : Type} (r : result A) : Call A := fun w => (r, w).

(** [try: c except Exception as e: handler e] *)
Definition try_except {A : Type} (c : Call A) (handler : exn -> Call A)
    : Call A :=
  fun w =>
    match c w with
    | (Ok a, w') => (Ok a, w')
    | (Raise e, w') => handler e w'
    end.

(** The two loaded objects, as Python sees them. *)
Record ScalerObject : Type := {
  transform : array2d -> Call array2d
}.

Record ModelObject : Type := {
  predict : array2d -> Call (list Z)
}.

Record Globals : Type := {
  KMEANS_MODEL : option ModelObject;
  SCALER : option ScalerObject
}.

(** The body of the [try] statement: the scaler is called, then the model
    in the world the scaler left. *)
Definition classify_body (km : ModelObject) (sc : ScalerObject)
    (sleep_hours screen_time productivity_score : Q) : Call string :=
  let ui :=
    rhythm_mapping.user_input sleep_hours screen_time productivity_score in
  call_bind (transform sc ui) (fun scaled_input =>
  call_bind (predict km scaled_input) (fun labels =>
  call_bind (pure_step (rhythm_mapping.first_item labels)) (fun cluster_index =>
  call_ret (default "Unknown State"
              (rhythm_mapping.CLUSTER_TO_STATE !! cluster_index))))).

Definition classify_rhythm_state (g : Globals)
    (sleep_hours screen_time productivity_score : Q) : Call string :=
  match KMEANS_MODEL g, SCALER g with
  | Some km, Some sc =>
      try_except
        (classify_body km sc sleep_hours screen_time productivity_score)
        (fun e => pure_step (rhythm_mapping.classify_handlers e))
  | _, _ => call_ret "Classification Error"
  end.

End world.

Arguments call_ret {World A} a.
Arguments call_bind {World A B} c k.
Arguments pure_step {World A} r.
Arguments try_except {World A} c handler.
Arguments transform {World} s.
Arguments predict {World} m.
Arguments KMEANS_MODEL {World} g.
Arguments SCALER {World} g.
Arguments classify_body {World} km sc sleep_hours screen_time productivity_score.
Arguments classify_rhythm_state {World} g sleep_hours screen_time
  productivity_score.

End stateful.

(** ** The fitted estimators behind the two artifacts *)

Module sklearn.

Local Open Scope Q_scope.

(** Modelled from the spec: the scaler artifact is a scikit-learn
    [StandardScaler], a library object outside the repository sources.  The
    specification gives its content (a mean and a standard deviation per
    feature, present once fitted) and its action (subtract the mean, divide
    by the standard deviation).  The library never stores a zero scale (a
    constant feature is given the scale one), so a fitted scaler carries
    the proof that none of its scales is zero and the division below is
    always a division by a nonzero number.  The numbers are exact
    rationals: the rounding of the library's binary64 arithmetic, and its
    overflow on very large inputs, are outside this model. *)
Record StandardScaler : Type := {
  mean_ : list Q;
  scale_ : list Q;
  scale_nonzero : forallb (fun s => negb (Qeq_bool s 0)) scale_ = true
}.

Fixpoint standardize_row (row means scales : list Q) : list Q :=
  match row, means, scales with
  | x :: row', m :: means', s :: scales' =>
      ((x - m) / s) :: standardize_row row' means' scales'
  | _, _, _ => []
  end.

Definition StandardScaler_transform (fitted : option StandardScaler)
    (X : array2d) : result array2d :=
  match fitted with
  | None =>
      Raise (mk_exn NotFittedError
               "This StandardScaler instance is not fitted yet.")
  | Some p =>
      if forallb (fun row => Nat.eqb (length row) (length (mean_ p))) X
      then Ok (map (fun row => standardize_row row (mean_ p) (scale_ p)) X)
      else Raise (mk_exn OtherError
                    "X has a different number of features than StandardScaler is expecting.")
  end.

(** Modelled from the spec: the cluster model artifact is a scikit-learn
    [KMeans], a library object outside the repository sources.  The
    specification gives its content (the centroid vectors in standardized
    feature space, present once fitted) and its action (nearest-centroid
    assignment).  The centroids form a rectangular array, and the library
    rejects a row whose number of features is not theirs. *)
Record KMeans : Type := {
  cluster_centers_ : list (list Q)
}.

Fixpoint sqdist (x c : list Q) : Q :=
  match x, c with
  | a :: x', b :: c' => (a - b) * (a - b) + sqdist x' c'
  | _, _ => 0
  end.

(** Index of the first smallest entry, scanning from position [i] with the
    best entry so far at [best_i]. *)
Fixpoint argmin_from (best_i : Z) (best : Q) (i : Z) (ds : list Q) : Z :=
  match ds with
  | [] => best_i
  | d :: ds' =>
      if Qle_bool best d then argmin_from best_i best (i + 1)%Z ds'
      else argmin_from i d (i + 1)%Z ds'
  end.

Definition argmin (ds : list Q) : option Z :=
  match ds with
  | [] => None
  | d :: ds' => Some (argmin_from 0%Z d 1%Z ds')
  end.

Definition nearest_centroid (centers : list (list Q)) (x : list Q) : option Z :=
  argmin (map (sqdist x) centers).

Definition KMeans_predict (fitted : option KMeans) (X : array2d)
    : result (list Z) :=
  match fitted with
  | None =>
      Raise (mk_exn NotFittedError "This KMeans instance is not fitted yet.")
  | Some p =>
      if forallb (fun row =>
                    forallb (fun c => Nat.eqb (length row) (length c))
                      (cluster_centers_ p)) X
      then
        match mapM (nearest_centroid (cluster_centers_ p)) X with
        | Some labels => Ok labels
        | None =>
            Raise (mk_exn OtherError
                     "attempt to get argmin of an empty sequence")
        end
      else Raise (mk_exn OtherError
                    "X has a different number of features than KMeans is expecting.")
  end.

(** The two estimators as artifacts. *)
Definition scaler_artifact (fitted : option StandardScaler) : Scaler :=
  {| transform := StandardScaler_transform fitted |}.

Definition kmeans_artifact (fitted : option KMeans) : ClusterModel :=
  {| predict := KMeans_predict fitted |}.

End sklearn.

(** ** Module [unsupervised_analysis]: feature selection and imputation *)

Module unsupervised_analysis.

(** A column of numbers; a missing value (NaN) is [None].  The numbers of a
    real data set are binary64 floats; the code of lines 19 to 25 does no
    arithmetic on them itself, so the frame is modelled over any type [num]
    of numbers. *)
Abbreviation column num := (list (option num)).

(** A data frame: its columns in order, each under its name. *)
Abbreviation DataFrame num := (list (string * list (option num))).

Definition CLUSTER_FEATURES : list string :=
  ["screen_time_hours"; "sleep_hours"; "productivity_0_100"].

Section frames.

Context {num : Type}.

(** pandas' column mean (a library call): the number the library returns
    for a column that has at least one entry present.  The library skips
    the missing entries and computes in binary64, so the number is the
    arithmetic mean of the entries present only up to rounding (and it
    overflows on large entries); the trainer takes whatever it returns.  A
    column holding both infinities, whose mean is NaN although entries are
    present, is outside this model. *)
Variable mean_value : column num -> num.

Fixpoint get_column (name : string) (df : DataFrame num)
    : result (column num) :=
  match df with
  | [] => Raise (mk_exn KeyError name)
  | (n, c) :: df' => if String.eqb n name then Ok c else get_column name df'
  end.

(** [df[names]]: the named columns, in the order of [names]. *)
Fixpoint select_columns (df : DataFrame num) (names : list string)
    : result (DataFrame num) :=
  match names with
  | [] => Ok []
  | n :: names' =>
      c ← get_column n df;
      rest ← select_columns df names';
      mret ((n, c) :: rest)
  end.

(** [frame.isnull().values.any()] *)
Definition any_null (df : DataFrame num) : bool :=
  existsb (fun nc => existsb (fun o => negb (bool_decide (is_Some o))) nc.2) df.

(** The number of entries present in a column. *)
Fixpoint count_valid (c : column num) : nat :=
  match c with
  | [] => 0%nat
  | Some _ :: c' => S (count_valid c')
  | None :: c' => count_valid c'
  end.

(** [column.mean()]: NaN when no entry is present, the library's mean
    otherwise. *)
Definition column_mean (c : column num) : option num :=
  match count_valid c with
  | O => None
  | S _ => Some (mean_value c)
  end.

(** [frame.mean()]: one mean per column, under the column's name. *)
Definition frame_mean (df : DataFrame num) : list (string * option num) :=
  map (fun nc => (nc.1, column_mean nc.2)) df.

(** [column.fillna(value)]; filling with NaN leaves the entry missing. *)
Definition fill_column (value : option num) (c : column num) : column num :=
  map (fun o => match o with Some v => Some v | None => value end) c.

Fixpoint get_mean (name : string) (means : list (string * option num))
    : option num :=
  match means with
  | [] => None
  | (n, m) :: means' => if String.eqb n name then m else get_mean name means'
  end.

(** [frame.fillna(means)]: each column is filled with the value stored
    under its own name. *)
Definition fillna (df : DataFrame num) (means : list (string * option num))
    : DataFrame num :=
  map (fun nc => (nc.1, fill_column (get_mean nc.1 means) nc.2)) df.

(** Lines 19 to 25: select the features, then impute when anything is
    missing. *)
Definition data_for_clustering (df : DataFrame num) : result (DataFrame num) :=
  d ← select_columns df CLUSTER_FEATURES;
  if any_null d then mret (fillna d (frame_mean d)) else mret d.

(** Row [i] of a frame, as the estimators receive it: one entry per column,
    in column order. *)
Definition frame_row (df : DataFrame num) (i : nat)
    : option (list (option num)) :=
  mapM (fun nc => nc.2 !! i) df.

End frames.

End unsupervised_analysis.

(** ** Columns of binary64 numbers *)

Module binary64.

Import unsupervised_analysis.

(** The rational a finite binary64 number stands for; an infinity and NaN
    stand for none. *)
Definition value (f : float) : option Q :=
  match Prim2SF f with
  | S754_zero _ => Some 0%Q
  | S754_finite s m e =>
      let magnitude :=
        if (0 <=? e)%Z then inject_Z (Z.pos m * 2 ^ e)
        else (Z.pos m # 2 ^ Z.to_pos (- e))%Q in
      Some (if s then Qopp magnitude else magnitude)
  | _ => None
  end.

(** The library's sum of a column short enough to be added entry by entry
    (fewer than eight rows): left to right, a missing entry counting as
    zero, each addition rounded to binary64. *)
Definition nansum (c : column float) : float :=
  fold_left (fun acc o => (acc + default 0 o)%float) c 0%float.

(** The library's mean of such a column: that sum over the number of
    entries present, rounded again. *)
Definition mean (c : column float) : float :=
  (nansum c / PrimFloat.of_uint63 (Uint63.of_Z (Z.of_nat (count_valid c))))%float.

End binary64.

(** ** Module [app]: dispatch on the classification result *)

Module app.

Import rhythm_mapping.

Record StateInfo : Set := {
  productivity : string;
  screen_time : string;
  sleep : string;
  color : string;
  icon : string
}.

Definition RHYTHM_STATES_items : list (string * StateInfo) :=
  [
    ("Flow State",
      {| productivity := "High"; screen_time := "Low"; sleep := "High";
         color := "#00A39C"; icon := "‚ö°" |});
    ("Digital Drift State",
      {| productivity := "Medium"; screen_time := "High"; sleep := "Medium";
         color := "#8058a5"; icon := "üåÄ" |});
    ("Balanced State",
      {| productivity := "Medium"; screen_time := "Medium"; sleep := "Medium";
         color := "#306DCC"; icon := "‚öñÔ∏è" |});
    ("Burnout State",
      {| productivity := "Low"; screen_time := "High"; sleep := "Low";
         color := "#C44E52"; icon := "üî•" |});
    ("Fatigue State",
      {| productivity := "Medium"; screen_time := "Medium"; sleep := "Low";
         color := "#FF8C00"; icon := "üò¥" |});
    ("Unknown State",
      {| productivity := "N/A"; screen_time := "N/A"; sleep := "N/A";
         color := "gray"; icon := "‚ùì" |}) ].

Definition RHYTHM_STATES : gmap string StateInfo :=
  list_to_map RHYTHM_STATES_items.

(** [needle in haystack] on strings. *)
Fixpoint contains (needle haystack : string) : bool :=
  String.prefix needle haystack ||
  match haystack with
  | EmptyString => false
  | String _ rest => contains needle rest
  end.

(** The test of the error branch. *)
Definition is_error_result (state_name : string) : bool :=
  contains "Error" state_name || String.eqb state_name "Unknown State".

(** [RHYTHM_STATES[state_name]] *)
Definition getitem (state_name : string) : result StateInfo :=
  match RHYTHM_STATES !! state_name with
  | Some info => Ok info
  | None => Raise (mk_exn KeyError state_name)
  end.

(** The values [render_input_ui] hands over and the analysis reads:
    [inputs['sleep_hours']], [inputs['screen_time']] (here [screen_time_in],
    the name being taken by the styling record) and
    [inputs['productivity_score']]. *)
Record Inputs : Type := {
  sleep_hours : Q;
  screen_time_in : Q;
  productivity_score : Q
}.

(** What the analysis section goes on to show. *)
Inductive View : Type :=
  | ErrorView (state_name : string)
  | ResultsView (state_name : string) (state_info : StateInfo).

(** Lines 313 to 329: classify, stop on an error result, else fetch the
    styling of the state. *)
Definition analysis (g : Globals) (inputs : Inputs) : result View :=
  state_name ← classify_rhythm_state g (sleep_hours inputs)
                  (screen_time_in inputs) (productivity_score inputs);
  if is_error_result state_name then mret (ErrorView state_name)
  else
    state_info ← getitem state_name;
    mret (ResultsView state_name state_info).

End app.

Import rhythm_mapping.

(** ** Concrete artifacts, storages and datasets for the examples *)

Module fixtures.

Import sklearn unsupervised_analysis app.
Local Open Scope Q_scope.

(** A fitted scaler: means and standard deviations of screen time, sleep
    and productivity. *)
Definition fitted_scaler : StandardScaler :=
  {| mean_ := [6; 7; 60]; scale_ := [2; 1; 20]; scale_nonzero := eq_refl |}.

(** A fitted five-cluster model, centroids in standardized space. *)
Definition fitted_kmeans : KMeans :=
  {| cluster_centers_ :=
       [ [2; -2; -2];
         [-2; 1; 1];
         [0; 0; 0];
         [0; -2; 0];
         [2; 0; -1 # 2] ] |}.

(** A model fitted with six clusters, one more than the table has keys. *)
Definition six_cluster_kmeans : KMeans :=
  {| cluster_centers_ := cluster_centers_ fitted_kmeans ++ [ [-2; 3; 2] ] |}.

Definition ready : Globals :=
  {| KMEANS_MODEL := Some (kmeans_artifact (Some fitted_kmeans));
     SCALER := Some (scaler_artifact (Some fitted_scaler)) |}.

(** The cluster model was persisted before being fitted. *)
Definition unfitted_model : Globals :=
  {| KMEANS_MODEL := Some (kmeans_artifact None);
     SCALER := Some (scaler_artifact (Some fitted_scaler)) |}.

(** The model file is there but cannot be unpickled; the scaler is fine. *)
Definition truncated_model_file : Storage :=
  {| load_kmeans_model := Raise (mk_exn OtherError "Ran out of input");
     load_scaler := Ok (scaler_artifact (Some fitted_scaler)) |}.

(** The model file is absent. *)
Definition model_file_absent : Storage :=
  {| load_kmeans_model :=
       Raise (mk_exn FileNotFoundError
                "[Errno 2] No such file or directory: 'rhythm_kmeans_model.pkl'");
     load_scaler := Ok (scaler_artifact (Some fitted_scaler)) |}.

(** A dataset with one more column than the trainer uses, the features in
    another order, and the second sleep entry missing. *)
Definition sample_dataset : DataFrame Q :=
  [ ("age", [Some 31; Some 45; Some 27])%Q;
    ("sleep_hours", [Some 7; None; Some 8])%Q;
    ("productivity_0_100", [Some 60; Some 40; Some 85])%Q;
    ("screen_time_hours", [Some 6; Some 10; Some 2])%Q ].



(** A model object that keeps count of its calls and answers with the
    count. *)
Definition counting_objects : stateful.Globals nat :=
  {| stateful.KMEANS_MODEL :=
       Some {| stateful.predict := fun X w => (Ok [Z.of_nat w], S w) |};
     stateful.SCALER :=
       Some {| stateful.transform :=
                 fun X w => (StandardScaler_transform (Some fitted_scaler) X, w) |}
  |}.

(** Two input records. *)
Definition morning : Inputs :=
  {| sleep_hours := 8; screen_time_in := 2; productivity_score := 85 |}.


End fixtures.

(** ** Module [app]: the API key *)

Module app_setup.

(** Where the key is looked for: Streamlit's secrets, whose loading can
    itself fail, and the environment variables. *)
Record Environment : Type := {
  secrets : result (gmap string string);
  environ : gmap string string
}.

(** [st.secrets[name]] *)
Definition secrets_getitem (env : Environment) (name : string)
    : result string :=
  m ← secrets env;
  match m !! name with
  | Some v => Ok v
  | None => Raise (mk_exn KeyError name)
  end.

(** A string is true when it is not empty. *)
Definition truthy (s : string) : bool := negb (String.eqb s "").

Definition key_not_found : exn :=
  mk_exn OtherError
    "GEMINI_API_KEY not found. Please ensure 'secrets.toml' is in the '.streamlit' folder or set as an environment variable.".

(** Lines 11 to 21. *)
Definition load_gemini_key (env : Environment) : result string :=
  match secrets_getitem env "GEMINI_API_KEY" with
  | Ok key => Ok key
  | Raise e =>
      match exn_cls e with
      | KeyError =>
          match environ env !! "GEMINI_API_KEY" with
          | Some key => if truthy key then Ok key else Raise key_not_found
          | None => Raise key_not_found
          end
      | _ => Raise e
      end
  end.

(** How the script gets past lines 23 to 28: with a key and a client, or
    stopped on an error notice. *)
Inductive Startup (Client : Type) : Type :=
  | Running (GEMINI_API_KEY : string) (client : Client)
  | Halted (notice : string).
Arguments Running {Client} GEMINI_API_KEY client.
Arguments Halted {Client} notice.

(** Lines 23 to 28; [make_client] is [genai.Client(api_key=...)]. *)
Definition startup {Client : Type} (make_client : string -> result Client)
    (env : Environment) : Startup Client :=
  match (key ← load_gemini_key env;
         client ← make_client key;
         mret (key, client)) with
  | Ok (key, client) => Running key client
  | Raise e => Halted ("Error loading API Key: " ++ exn_msg e)
  end.

End app_setup.

(** ** Module [app]: the prompt *)

Module app_prompt.

Import app.

(** The dictionary handed over as [user_data]; each value stands for the
    text it is formatted to inside the prompt. *)
Definition user_data_getitem (user_data : gmap string string) (key : string)
    : result string :=
  match user_data !! key with
  | Some v => Ok v
  | None => Raise (mk_exn KeyError key)
  end.

(** [RHYTHM_STATES.get(state_name, RHYTHM_STATES["Unknown State"])]: the
    default is looked up before [get] is called. *)
Definition state_details_of (state_name : string) : result StateInfo :=
  fallback ← getitem "Unknown State";
  mret (default fallback (RHYTHM_STATES !! state_name)).

Definition ml_insights_context : string :=
  "Context from Data Analysis: Screen time is the primary disruptor to productivity, "
  ++ "and prioritizing rest is the most effective way to sustain flow. "
  ++ "The intervention must be non-digital and human-centered.".

Definition generate_llm_prompt (state_name : string)
    (user_data : gmap string string) : result string :=
  state_details ← state_details_of state_name;
  goal ← user_data_getitem user_data "goal";
  screen_time_text ← user_data_getitem user_data "screen_time";
  sleep_hours_text ← user_data_getitem user_data "sleep_hours";
  productivity_score_text ← user_data_getitem user_data "productivity_score";
  mret ("
    You are 'Rhythm AI', an empathetic, human-centered productivity coach. Your role is to translate data patterns into personalized, non-technical advice for a user.

    **User's Current State (Clustering Result):** "
     ++ state_name
     ++ "
    **State Characteristics:** "
     ++ productivity state_details
     ++ " Productivity, "
     ++ screen_time state_details
     ++ " Screen Time, "
     ++ sleep state_details
     ++ " Sleep.
    **User's Today's Goal:** "
     ++ goal
     ++ "
    **User's Metrics:** "
     ++ screen_time_text
     ++ " hours screen time, "
     ++ sleep_hours_text
     ++ " hours sleep, "
     ++ productivity_score_text
     ++ "% productivity.

    "
     ++ ml_insights_context
     ++ "

    **Your Task:**
    1.  **Insight:** Write a short, empathetic paragraph (max 3 sentences) acknowledging their current state and explaining what it means for their goal in simple, human language. Use the cluster label (e.g., 'Flow State') once.
    2.  **Microbreak:** Generate one personalized, non-digital microbreak (2-5 minutes) specifically tailored to address the core need of their state, focusing on reflection, breathing, or planning.
    3.  **Format:** Output the response in JSON format with two keys: 'insight' and 'microbreak'.
    ").

End app_prompt.

(** ** Module [app]: the script from line 268 on, one run at a time *)

Module app_flow.

Import app app_prompt.

(** The dictionary [render_input_ui] returns. *)
Record RenderedInputs : Type := {
  values : Inputs;
  goal : string;
  analyze_clicked : bool
}.

(** The three keys of [st.session_state] the script branches on; a key is
    absent until it is first assigned. *)
Record SessionState : Type := {
  ss_analyze_clicked : option bool;
  ss_input_expanded : option bool;
  ss_user_inputs : option RenderedInputs
}.

Definition fresh : SessionState :=
  {| ss_analyze_clicked := None; ss_input_expanded := None;
     ss_user_inputs := None |}.

(** The buttons of the page, by their keys. *)
Inductive Button : Set :=
  | analyze_btn
  | uncollapse_btn
  | error_modify_btn
  | new_analysis_btn
  | api_error_modify_btn.

#[global] Instance Button_eq_dec : EqDecision Button.
Proof. solve_decision. Defined.

(** What one run of the script is handed from outside: the values the
    widgets hold, the button the run was triggered by (a button reads [True]
    only in that run, and only where it is drawn), and what the generation
    service, followed by [json.loads], makes of a prompt during the run. *)
Record Event : Type := {
  widget_values : Inputs;
  goal_text : string;
  click : option Button;
  respond : string -> result (gmap string string)
}.

Definition pressed (ev : Event) (b : Button) : bool :=
  bool_decide (click ev = Some b).

(** What a run has put on the page below the inputs when it ends. *)
Inductive Page : Type :=
  | InputsOnly
  | ClassificationFailed (state_name : string)
  | Results (state_name : string) (state_info : StateInfo)
      (insight microbreak : string) (shown : RenderedInputs)
  | ApiFailed (state_name : string) (cause : string).

(** How a run ends: at the end of the script, at [st.stop()], or at
    [st.rerun()]. *)
Inductive Ending : Type :=
  | Completed (page : Page)
  | Stopped (page : Page)
  | Rerun.

Record RunResult : Type := {
  session_after : SessionState;
  ending : Ending
}.

(** Lines 269 to 272. *)
Definition init_flags (ss : SessionState) : SessionState :=
  {| ss_analyze_clicked := Some (default false (ss_analyze_clicked ss));
     ss_input_expanded := Some (default true (ss_input_expanded ss));
     ss_user_inputs := ss_user_inputs ss |}.

Definition render_input_ui (ev : Event) : RenderedInputs :=
  {| values := widget_values ev; goal := goal_text ev;
     analyze_clicked := pressed ev analyze_btn |}.

(** The three assignments made when "analyze rhythm" was clicked. *)
Definition store_inputs (ss : SessionState) (inputs : RenderedInputs)
    : SessionState :=
  {| ss_user_inputs := Some inputs;
     ss_analyze_clicked := Some true;
     ss_input_expanded := Some false |}.

(** The two assignments every way back to the inputs makes. *)
Definition back_to_inputs (ss : SessionState) : SessionState :=
  {| ss_input_expanded := Some true;
     ss_analyze_clicked := Some false;
     ss_user_inputs := ss_user_inputs ss |}.

Definition flag (o : option bool) : bool := default false o.

Section formatting.

(** How a number of the inputs reads inside the prompt: the sleep and
    screen-time values are floats, the productivity score is an integer. *)
Variable format_float : Q -> string.
Variable format_int : Q -> string.

(** The stored dictionary as [generate_llm_prompt] reads it. *)
Definition user_data_of (inputs : RenderedInputs) : gmap string string :=
  {[ "sleep_hours" := format_float (sleep_hours (values inputs));
     "screen_time" := format_float (screen_time_in (values inputs));
     "productivity_score" := format_int (productivity_score (values inputs));
     "goal" := goal inputs;
     "analyze_clicked" := if analyze_clicked inputs then "True" else "False" ]}.

(** Lines 275 to 307: the inputs, inside the expander or in full view.
    [None] stands for a run left at [st.rerun()]; otherwise the value of
    [inputs] after the section, [None] inside being the empty dictionary. *)
Definition input_section (ss : SessionState) (ev : Event)
    : SessionState * option (option RenderedInputs) :=
  let inputs := render_input_ui ev in
  if flag (ss_analyze_clicked ss) && negb (flag (ss_input_expanded ss)) then
    if analyze_clicked inputs then (store_inputs ss inputs, None)
    else if pressed ev uncollapse_btn then (back_to_inputs ss, None)
    else (ss, Some (ss_user_inputs ss))
  else
    if analyze_clicked inputs then (store_inputs ss inputs, None)
    else (ss, Some (Some inputs)).

(** Lines 346 to 436: the call of the generation service and the cards, with
    the handler of the [try] statement.  [st.rerun()] inside the [try]
    leaves it: the exception it raises is no [Exception]. *)
Definition results_section (ss : SessionState) (ev : Event)
    (state_name : string) (state_info : StateInfo) (llm_prompt : string)
    (inputs : RenderedInputs) : RunResult :=
  match respond ev llm_prompt with
  | Ok llm_results =>
      if pressed ev new_analysis_btn
      then {| session_after := back_to_inputs ss; ending := Rerun |}
      else {| session_after := ss;
              ending := Completed
                          (Results state_name state_info
                             (default "" (llm_results !! "insight"))
                             (default "" (llm_results !! "microbreak"))
                             inputs) |}
  | Raise e =>
      if pressed ev api_error_modify_btn
      then {| session_after := back_to_inputs ss; ending := Rerun |}
      else {| session_after := ss;
              ending := Completed (ApiFailed state_name (exn_msg e)) |}
  end.

(** Lines 311 to 436. *)
Definition analysis_section (g : rhythm_mapping.Globals) (ss : SessionState)
    (ev : Event) (inputs : option RenderedInputs) : result RunResult :=
  match inputs with
  | Some inputs =>
      if flag (ss_analyze_clicked ss) then
        view ← analysis g (values inputs);
        match view with
        | ErrorView state_name =>
            if pressed ev error_modify_btn
            then mret {| session_after := back_to_inputs ss; ending := Rerun |}
            else mret {| session_after := ss;
                         ending := Stopped (ClassificationFailed state_name) |}
        | ResultsView state_name state_info =>
            llm_prompt ← generate_llm_prompt state_name (user_data_of inputs);
            mret (results_section ss ev state_name state_info llm_prompt
                    inputs)
        end
      else mret {| session_after := ss; ending := Completed InputsOnly |}
  | None => mret {| session_after := ss; ending := Completed InputsOnly |}
  end.

(** One run of the script, from line 268 to its end. *)
Definition run (g : rhythm_mapping.Globals) (ss : SessionState) (ev : Event)
    : result RunResult :=
  let ss := init_flags ss in
  match input_section ss ev with
  | (ss, None) => mret {| session_after := ss; ending := Rerun |}
  | (ss, Some inputs) => analysis_section g ss ev inputs
  end.

(** The run [st.rerun()] starts: same widgets, no button pressed. *)
Definition rerun_event (ev : Event) : Event :=
  {| widget_values := widget_values ev; goal_text := goal_text ev;
     click := None; respond := respond ev |}.

(** What one action of the user leads to: the run it triggers and, when
    that run asks for it, the run after. *)
Definition interaction (g : rhythm_mapping.Globals) (ss : SessionState)
    (ev : Event) : result RunResult :=
  r ← run g ss ev;
  match ending r with
  | Rerun => run g (session_after r) (rerun_event ev)
  | _ => mret r
  end.

(** A session: the user's actions in order, from a given state. *)
Fixpoint session (g : rhythm_mapping.Globals) (ss : SessionState)
    (evs : list Event) : result SessionState :=
  match evs with
  | [] => mret ss
  | ev :: evs' =>
      r ← interaction g ss ev;
      session g (session_after r) evs'
  end.

End formatting.

End app_flow.

(** ** Events and formats for the examples *)

Module flow_fixtures.

Import app app_flow.

(** Whole numbers as Python writes them, floats with one decimal; enough for
    the examples, whose numbers are whole. *)
Definition show_int (q : Q) : string := pretty (Qnum q / Zpos (Qden q))%Z.
Definition show_float (q : Q) : string := show_int q ++ ".0".

(** The service answers, or is unavailable, whatever the prompt. *)
Definition answering (prompt : string) : result (gmap string string) :=
  Ok {[ "insight" := "You are in a steady rhythm.";
        "microbreak" := "Breathe slowly for two minutes." ]}.

Definition unavailable (prompt : string) : result (gmap string string) :=
  Raise (mk_exn OtherError "503 UNAVAILABLE").

Definition event (b : option Button)
    (respond : string -> result (gmap string string)) : Event :=
  {| widget_values := fixtures.morning;
     goal_text := "Finish presentation deck";
     click := b; respond := respond |}.

(** What "analyze rhythm" stores from that event. *)
Definition stored : RenderedInputs :=
  {| values := fixtures.morning; goal := "Finish presentation deck";
     analyze_clicked := true |}.

(** A session with the analysis of [stored] on the page. *)
Definition analysed_session : SessionState := store_inputs fresh stored.

End flow_fixtures.

(** * Statements *)

Import sklearn unsupervised_analysis app.

(** ** The result strings *)

(** The four failure results [classify_rhythm_state] can produce. *)
Inductive failure_sentinel : string -> Prop :=
  | sentinel_unavailable : failure_sentinel "Classification Error"
  | sentinel_not_fitted : failure_sentinel "Model Not Fitted Error"
  | sentinel_generic (msg : string) :
      failure_sentinel ("Classification Error: " ++ msg)
  | sentinel_unknown : failure_sentinel "Unknown State".

(** A legitimate label is a value of the lookup table. *)
Definition state_label (s : string) : Prop :=
  exists i : Z, CLUSTER_TO_STATE !! i = Some s.

(** The five fixed semantic labels, as the specification lists them. *)
Definition spec_labels : list string :=
  ["Burnout State"; "Flow State"; "Balanced State"; "Fatigue State";
   "Digital Drift State"].

Create HintDb rhythm.
#[local] Hint Constructors failure_sentinel : rhythm.

(** ** Failed loads *)

(** A [joblib.load] call did not produce the object, whatever the cause. *)
Definition load_failed {A : Type} (r : result A) : Prop :=
  exists e : exn, r = Raise e.

(** A [joblib.load] call found no file. *)
Definition file_missing {A : Type} (r : result A) : Prop :=
  exists msg : string, r = Raise (mk_exn FileNotFoundError msg).

(** The reading of C2 that covers every failed load: once either load has
    failed, the module is imported and every call answers "Classification
    Error". *)
Definition unavailable_after_failed_load (fs : Storage) : Prop :=
  load_failed (load_kmeans_model fs) \/ load_failed (load_scaler fs) ->
  exists g : Globals,
    import_module fs = Ok g /\
    forall sleep_hours screen_time productivity_score : Q,
      classify_rhythm_state g sleep_hours screen_time productivity_score
      = Ok "Classification Error".

(** ** The mean of a column *)

(** The mean in the specification's words: the remaining non-missing
    entries of the column, summed and divided by their number. *)
Module spec.

Definition present {num : Type} (c : list (option num)) : list num :=
  omap id c.

Definition Qsum (vs : list Q) : Q := foldr Qplus 0%Q vs.

Definition mean (vs : list Q) : Q :=
  (Qsum vs / inject_Z (Z.of_nat (length vs)))%Q.

End spec.

(** A column mean over the rationals that is that mean exactly. *)
Definition exact_mean (c : list (option Q)) : Q := spec.mean (spec.present c).


(** ** Objects that are only read *)

(** The method of the object answers as the function does and leaves the
    world as it found it. *)
Definition scaler_read_only {World : Type} (obj : stateful.ScalerObject World)
    (sc : Scaler) : Prop :=
  forall (X : array2d) (w : World),
    stateful.transform obj X w = (transform sc X, w).

Definition model_read_only {World : Type} (obj : stateful.ModelObject World)
    (km : ClusterModel) : Prop :=
  forall (X : array2d) (w : World),
    stateful.predict obj X w = (predict km X, w).

(** The loaded objects [g] are only read, and [pure] says what they
    answer: the state the specification gives the artifacts once loaded. *)
Definition artifacts_read_only {World : Type} (g : stateful.Globals World)
    (pure : Globals) : Prop :=
  match stateful.KMEANS_MODEL g, KMEANS_MODEL pure with
  | Some obj, Some km => model_read_only obj km
  | None, None => True
  | _, _ => False
  end /\
  match stateful.SCALER g, SCALER pure with
  | Some obj, Some sc => scaler_read_only obj sc
  | None, None => True
  | _, _ => False
  end.

(** The calls a process makes, one after the other, each in the world the
    previous one left: the answers in order and the world at the end. *)
Fixpoint calls_in_sequence {World : Type} (g : stateful.Globals World)
    (requests : list Inputs) (w : World) : list (result string) * World :=
  match requests with
  | [] => ([], w)
  | r :: requests' =>
      let '(answer, w1) :=
        stateful.classify_rhythm_state g (sleep_hours r) (screen_time_in r)
          (productivity_score r) w in
      let '(answers, w2) := calls_in_sequence g requests' w1 in
      (answer :: answers, w2)
  end.

(** ** Arrays of numbers *)

(** Pairwise distinct points: no two at distance zero. *)
Fixpoint pairwise_apart (cs : list (list Q)) : bool :=
  match cs with
  | [] => true
  | c :: cs' =>
      forallb (fun c' => negb (Qeq_bool (sqdist c c') 0)) cs'
      && pairwise_apart cs'
  end.

(** ** States of the session *)

(** The inputs are in full view and nothing is analysed. *)
Definition at_inputs (ss : app_flow.SessionState) : Prop :=
  app_flow.ss_analyze_clicked ss = Some false /\
  app_flow.ss_input_expanded ss = Some true.

(** An analysis of the stored inputs is on the page, the inputs folded
    away. *)
Definition analysed (ss : app_flow.SessionState)
    (stored : app_flow.RenderedInputs) : Prop :=
  app_flow.ss_analyze_clicked ss = Some true /\
  app_flow.ss_input_expanded ss = Some false /\
  app_flow.ss_user_inputs ss = Some stored.

Definition settled (ss : app_flow.SessionState) : Prop :=
  at_inputs ss \/ exists stored : app_flow.RenderedInputs, analysed ss stored.

(** ** What a run makes of stored inputs *)

(** The analysis of stored inputs in a run triggered by the event [ev]: the
    classification failed, or it gave a label and the generation service was
    asked. *)
Definition analysis_outcome (format_float format_int : Q -> string)
    (g : Globals) (ss : app_flow.SessionState) (ev : app_flow.Event)
    (stored : app_flow.RenderedInputs) (r : app_flow.RunResult) : Prop :=
  (exists s : string,
      classify_rhythm_state g (sleep_hours (app_flow.values stored))
        (screen_time_in (app_flow.values stored))
        (productivity_score (app_flow.values stored)) = Ok s /\
      failure_sentinel s /\
      r = if app_flow.pressed ev app_flow.error_modify_btn
          then {| app_flow.session_after := app_flow.back_to_inputs ss;
                  app_flow.ending := app_flow.Rerun |}
          else {| app_flow.session_after := ss;
                  app_flow.ending :=
                    app_flow.Stopped (app_flow.ClassificationFailed s) |}) \/
  (exists (s : string) (info : StateInfo) (p : string),
      classify_rhythm_state g (sleep_hours (app_flow.values stored))
        (screen_time_in (app_flow.values stored))
        (productivity_score (app_flow.values stored)) = Ok s /\
      state_label s /\
      RHYTHM_STATES !! s = Some info /\
      app_prompt.generate_llm_prompt s
        (app_flow.user_data_of format_float format_int stored) = Ok p /\
      r = app_flow.results_section ss ev s info p stored).

(** The page an interaction ends on when it shows an analysis of [stored]:
    the classification's failure, the cards, or the service's failure; the
    session is left as it is. *)
Definition shown_analysis (format_float format_int : Q -> string)
    (g : Globals) (ss : app_flow.SessionState)
    (stored : app_flow.RenderedInputs)
    (respond : string -> result (gmap string string))
    (r : app_flow.RunResult) : Prop :=
  app_flow.session_after r = ss /\
  exists s : string,
    classify_rhythm_state g (sleep_hours (app_flow.values stored))
      (screen_time_in (app_flow.values stored))
      (productivity_score (app_flow.values stored)) = Ok s /\
    ((failure_sentinel s /\
      app_flow.ending r
      = app_flow.Stopped (app_flow.ClassificationFailed s)) \/
     (exists (info : StateInfo) (p : string),
         state_label s /\ RHYTHM_STATES !! s = Some info /\
         app_prompt.generate_llm_prompt s
           (app_flow.user_data_of format_float format_int stored) = Ok p /\
         ((exists answer : gmap string string,
              respond p = Ok answer /\
              app_flow.ending r
              = app_flow.Completed
                  (app_flow.Results s info
                     (default "" (answer !! "insight"))
                     (default "" (answer !! "microbreak")) stored)) \/
          (exists e : exn,
              respond p = Raise e /\
              app_flow.ending r
              = app_flow.Completed (app_flow.ApiFailed s (exn_msg e)))))).

(** The inputs of the last click on "analyze rhythm" among the events, or
    [stored] when there was none. *)
Fixpoint last_analyzed (evs : list app_flow.Event)
    (stored : option app_flow.RenderedInputs)
    : option app_flow.RenderedInputs :=
  match evs with
  | [] => stored
  | ev :: evs' =>
      last_analyzed evs'
        (if app_flow.pressed ev app_flow.analyze_btn
         then Some (app_flow.render_input_ui ev) else stored)
  end.

(** ** Missing entries *)

(** The test [any_null] applies to each entry. *)
Abbreviation is_null := (fun o : option _ => negb (bool_decide (is_Some o))).

(** * Properties *)

(** ** The lookup table *)

Lemma CLUSTER_TO_STATE_keys_NoDup : NoDup CLUSTER_TO_STATE_items.*1.
Proof. compute_done. Qed.

Lemma CLUSTER_TO_STATE_lookup (i : Z) (l : string) :
  CLUSTER_TO_STATE !! i = Some l <->
  (i = 0 /\ l = "Burnout State") \/ (i = 1 /\ l = "Flow State") \/
  (i = 2 /\ l = "Balanced State") \/ (i = 3 /\ l = "Fatigue State") \/
  (i = 4 /\ l = "Digital Drift State").
Proof.
  unfold CLUSTER_TO_STATE.
  rewrite <- (elem_of_list_to_map _ _ _ CLUSTER_TO_STATE_keys_NoDup).
  unfold CLUSTER_TO_STATE_items.
  rewrite !elem_of_cons, elem_of_nil.
  split; intros H.
  - repeat destruct H as [H|H]; [injection H as -> ->; intuition congruence..|done].
  - repeat destruct H as [H|H]; destruct H as [-> ->]; intuition congruence.
Qed.

Lemma CLUSTER_TO_STATE_none (i : Z) :
  CLUSTER_TO_STATE !! i = None <-> ~ (0 <= i <= 4).
Proof.
  split.
  - intros Hn Hr.
    assert (i = 0 \/ i = 1 \/ i = 2 \/ i = 3 \/ i = 4) as Hi by lia.
    repeat destruct Hi as [Hi|Hi]; subst i; vm_compute in Hn; discriminate.
  - intros Hr. destruct (CLUSTER_TO_STATE !! i) as [l|] eqn:E; [|done].
    apply CLUSTER_TO_STATE_lookup in E. lia.
Qed.

Lemma state_label_cases (s : string) :
  state_label s <-> s ∈ spec_labels.
Proof.
  unfold state_label, spec_labels. rewrite !elem_of_cons, elem_of_nil.
  split.
  - intros [i Hi]. apply CLUSTER_TO_STATE_lookup in Hi.
    repeat destruct Hi as [Hi|Hi]; destruct Hi as [_ ->]; intuition congruence.
  - intros H. repeat destruct H as [H|H]; subst;
      [exists 0|exists 1|exists 2|exists 3|exists 4|done]; reflexivity.
Qed.

(** C4: the lookup table has exactly the keys 0, 1, 2, 3, 4; every label in
    it is non-empty; different keys carry different labels; and each of the
    five fixed semantic labels sits under exactly one key, the table holding
    nothing else. *)
Theorem cluster_table_is_a_bijection_on_five_labels :
  dom CLUSTER_TO_STATE = ({[0; 1; 2; 3; 4]} : gset Z) /\
  size CLUSTER_TO_STATE = 5%nat /\
  (forall (i : Z) (l : string), CLUSTER_TO_STATE !! i = Some l -> l <> "") /\
  (forall (i j : Z) (l : string),
      CLUSTER_TO_STATE !! i = Some l -> CLUSTER_TO_STATE !! j = Some l ->
      i = j) /\
  (forall l : string, l ∈ spec_labels ->
      exists i : Z, CLUSTER_TO_STATE !! i = Some l /\
        forall j : Z, CLUSTER_TO_STATE !! j = Some l -> j = i) /\
  (forall (i : Z) (l : string),
      CLUSTER_TO_STATE !! i = Some l -> l ∈ spec_labels) /\
  NoDup spec_labels /\ length spec_labels = 5%nat.
Proof.
  assert (Hinj : forall (i j : Z) (l : string),
             CLUSTER_TO_STATE !! i = Some l ->
             CLUSTER_TO_STATE !! j = Some l -> i = j).
  { intros i j l Hi Hj.
    apply CLUSTER_TO_STATE_lookup in Hi. apply CLUSTER_TO_STATE_lookup in Hj.
    repeat destruct Hi as [Hi|Hi]; destruct Hi as [-> ->];
      repeat destruct Hj as [Hj|Hj]; destruct Hj as [-> Hj];
      first [reflexivity | discriminate Hj]. }
  split_and!.
  - apply set_eq. intros i. rewrite elem_of_dom.
    rewrite <- not_eq_None_Some, CLUSTER_TO_STATE_none.
    rewrite !elem_of_union, !elem_of_singleton. lia.
  - unfold CLUSTER_TO_STATE. rewrite <- size_dom, dom_list_to_map_L.
    compute_done.
  - intros i l Hi ->. apply CLUSTER_TO_STATE_lookup in Hi.
    repeat destruct Hi as [Hi|Hi]; destruct Hi as [_ Hi]; discriminate Hi.
  - exact Hinj.
  - intros l Hl. apply state_label_cases in Hl as [i Hi].
    exists i. split; [exact Hi|]. intros j Hj. exact (Hinj j i l Hj Hi).
  - intros i l Hi. apply state_label_cases. by exists i.
  - compute_done.
  - reflexivity.
Qed.

(** ** The classifier always answers *)

Lemma classify_handlers_sentinel (e : exn) :
  exists s : string,
    classify_handlers e = Ok s /\ failure_sentinel s /\
    (exn_cls e = NotFittedError -> s = "Model Not Fitted Error") /\
    (exn_cls e <> NotFittedError -> s = "Classification Error: " ++ exn_msg e).
Proof.
  destruct e as [cls msg]. unfold classify_handlers.
  destruct cls; simpl; eexists; (split; [reflexivity|]);
    split_and!; auto with rhythm; congruence.
Qed.

Lemma classify_body_cases (km : ClusterModel) (sc : Scaler)
    (sleep_hours screen_time productivity_score : Q) :
  (exists e : exn,
      classify_body km sc sleep_hours screen_time productivity_score
      = Raise e) \/
  (exists i : Z,
      classify_body km sc sleep_hours screen_time productivity_score
      = Ok (default "Unknown State" (CLUSTER_TO_STATE !! i))).
Proof.
  unfold classify_body.
  destruct (transform sc _) as [X|e]; simpl; [|by left; exists e].
  destruct (predict km X) as [[|i rest]|e]; simpl.
  - left. eauto.
  - right. by exists i.
  - left. by exists e.
Qed.

Lemma classify_returns (g : Globals)
    (sleep_hours screen_time productivity_score : Q) :
  exists s : string,
    classify_rhythm_state g sleep_hours screen_time productivity_score = Ok s /\
    (failure_sentinel s \/ state_label s).
Proof.
  unfold classify_rhythm_state.
  destruct (KMEANS_MODEL g) as [km|]; [|eauto with rhythm].
  destruct (SCALER g) as [sc|]; [|eauto with rhythm].
  destruct (classify_body_cases km sc sleep_hours screen_time
              productivity_score) as [[e ->]|[i ->]].
  - destruct (classify_handlers_sentinel e) as (s & -> & Hs & _). eauto.
  - eexists. split; [reflexivity|].
    destruct (CLUSTER_TO_STATE !! i) as [l|] eqn:E; simpl.
    + right. by exists i.
    + left. constructor.
Qed.

(** C3: for every state of the two globals and every input triple the
    classifier returns a string, which is a failure sentinel or a label of
    the table; and when [transform] or [predict] raises, the string returned
    is a failure sentinel: "Model Not Fitted Error" for a [NotFittedError],
    "Classification Error: " followed by the cause for any other fault. *)
Theorem classify_never_raises (g : Globals)
    (sleep_hours screen_time productivity_score : Q) :
  (exists s : string,
      classify_rhythm_state g sleep_hours screen_time productivity_score
      = Ok s /\
      (failure_sentinel s \/ state_label s)) /\
  (forall (km : ClusterModel) (sc : Scaler) (e : exn),
      KMEANS_MODEL g = Some km -> SCALER g = Some sc ->
      (transform sc (user_input sleep_hours screen_time productivity_score)
       = Raise e \/
       exists X : array2d,
         transform sc (user_input sleep_hours screen_time productivity_score)
         = Ok X /\ predict km X = Raise e) ->
      exists s : string,
        classify_rhythm_state g sleep_hours screen_time productivity_score
        = Ok s /\
        failure_sentinel s /\
        (exn_cls e = NotFittedError -> s = "Model Not Fitted Error") /\
        (exn_cls e <> NotFittedError ->
         s = "Classification Error: " ++ exn_msg e)).
Proof.
  split; [apply classify_returns|].
  intros km sc e Hkm Hsc Hfault.
  unfold classify_rhythm_state. rewrite Hkm, Hsc.
  assert (classify_body km sc sleep_hours screen_time productivity_score
          = Raise e) as ->.
  { unfold classify_body.
    destruct Hfault as [->|(X & -> & HX)]; simpl; [done|by rewrite HX]. }
  apply classify_handlers_sentinel.
Qed.

Lemma classify_never_raises_witness :
  exists s : string,
    classify_rhythm_state fixtures.unfitted_model 8 2 85 = Ok s /\
    failure_sentinel s /\
    (NotFittedError = NotFittedError -> s = "Model Not Fitted Error") /\
    (NotFittedError <> NotFittedError ->
     s = "Classification Error: " ++ "This KMeans instance is not fitted yet.").
Proof.
  refine (proj2 (classify_never_raises fixtures.unfitted_model 8 2 85) _ _
            (mk_exn NotFittedError "This KMeans instance is not fitted yet.")
            eq_refl eq_refl _).
  right. eexists. split; reflexivity.
Defined.

(** C8: when the index the model predicts is none of 0 to 4, it is not a key
    of the table and the classifier returns "Unknown State". *)
Theorem unknown_index_yields_unknown_state (km : ClusterModel) (sc : Scaler)
    (sleep_hours screen_time productivity_score : Q)
    (X : array2d) (i : Z) (rest : list Z) :
  transform sc (user_input sleep_hours screen_time productivity_score) = Ok X ->
  predict km X = Ok (i :: rest) ->
  ~ (0 <= i <= 4) ->
  CLUSTER_TO_STATE !! i = None /\
  classify_rhythm_state {| KMEANS_MODEL := Some km; SCALER := Some sc |}
    sleep_hours screen_time productivity_score = Ok "Unknown State".
Proof.
  intros Htr Hpr Hi. apply CLUSTER_TO_STATE_none in Hi. split; [exact Hi|].
  unfold classify_rhythm_state, classify_body; simpl.
  rewrite Htr; simpl. rewrite Hpr; simpl. by rewrite Hi.
Qed.

Lemma unknown_index_yields_unknown_state_witness :
  CLUSTER_TO_STATE !! 5 = None /\
  classify_rhythm_state
    {| KMEANS_MODEL :=
         Some (sklearn.kmeans_artifact (Some fixtures.six_cluster_kmeans));
       SCALER := Some (sklearn.scaler_artifact (Some fixtures.fitted_scaler)) |}
    10 2 100 = Ok "Unknown State".
Proof.
  eapply (unknown_index_yields_unknown_state _ _ 10 2 100 _ 5 []);
    [reflexivity | reflexivity | lia].
Defined.

(** ** Missing artifacts *)

Lemma classify_without_artifacts (g : Globals)
    (sleep_hours screen_time productivity_score : Q) :
  KMEANS_MODEL g = None \/ SCALER g = None ->
  classify_rhythm_state g sleep_hours screen_time productivity_score
  = Ok "Classification Error".
Proof.
  unfold classify_rhythm_state. intros [->| ->]; [done|].
  by destruct (KMEANS_MODEL g).
Qed.

Lemma unavailable_is_not_a_label : ~ state_label "Classification Error".
Proof.
  intros H. apply state_label_cases in H. revert H. compute_done.
Qed.

(** C2, as stated, fails: a load that fails otherwise than by a missing file
    is not caught, the import raises and no call is ever answered. *)
Lemma failed_load_aborts_the_import :
  ~ unavailable_after_failed_load fixtures.truncated_model_file.
Proof.
  intros H. destruct H as (g & Hg & _).
  - left. eexists. reflexivity.
  - discriminate Hg.
Qed.

(** C2, amended: when the import-time load stops at a missing file (the
    model file, or the scaler file once the model has loaded), the import
    succeeds with both globals [None] and the classifier answers
    "Classification Error" for the input triple, as it does in any state
    where one global is [None]; that string is none of the other results:
    not "Classification Error: " followed by a cause, not "Model Not Fitted
    Error", not "Unknown State", not a label. *)
Theorem unavailable_when_artifact_file_missing (fs : Storage)
    (sleep_hours screen_time productivity_score : Q) :
  file_missing (load_kmeans_model fs) \/
  ((exists km : ClusterModel, load_kmeans_model fs = Ok km) /\
   file_missing (load_scaler fs)) ->
  (exists g : Globals,
      import_module fs = Ok g /\
      KMEANS_MODEL g = None /\ SCALER g = None /\
      classify_rhythm_state g sleep_hours screen_time productivity_score
      = Ok "Classification Error") /\
  (forall g : Globals,
      KMEANS_MODEL g = None \/ SCALER g = None ->
      classify_rhythm_state g sleep_hours screen_time productivity_score
      = Ok "Classification Error") /\
  (forall msg : string,
      "Classification Error" <> "Classification Error: " ++ msg) /\
  "Classification Error" <> "Model Not Fitted Error" /\
  "Classification Error" <> "Unknown State" /\
  ~ state_label "Classification Error".
Proof.
  intros Hmiss. split_and!.
  - exists {| KMEANS_MODEL := None; SCALER := None |}.
    split_and!; try reflexivity.
    unfold import_module, load_both.
    destruct Hmiss as [[msg ->]|[[km ->] [msg ->]]]; reflexivity.
  - intros g Hg. by apply classify_without_artifacts.
  - intros msg. simpl. discriminate.
  - discriminate.
  - discriminate.
  - exact unavailable_is_not_a_label.
Qed.

Lemma unavailable_when_artifact_file_missing_witness :
  (exists g : Globals,
      import_module fixtures.model_file_absent = Ok g /\
      KMEANS_MODEL g = None /\ SCALER g = None /\
      classify_rhythm_state g 24 24 100 = Ok "Classification Error") /\
  (forall g : Globals,
      KMEANS_MODEL g = None \/ SCALER g = None ->
      classify_rhythm_state g 24 24 100 = Ok "Classification Error") /\
  (forall msg : string,
      "Classification Error" <> "Classification Error: " ++ msg) /\
  "Classification Error" <> "Model Not Fitted Error" /\
  "Classification Error" <> "Unknown State" /\
  ~ state_label "Classification Error".
Proof.
  apply (unavailable_when_artifact_file_missing fixtures.model_file_absent 24 24 100).
  left. eexists. reflexivity.
Defined.

(** ** The trainer's imputation *)

Section imputation.

Context {num : Type} (mean_value : list (option num) -> num).

Lemma count_valid_present (c : column num) :
  count_valid c = length (spec.present c).
Proof.
  induction c as [|[v|] c IH]; simpl; [done| |done].
  change (spec.present (Some v :: c)) with (v :: spec.present c).
  simpl. by rewrite IH.
Qed.


Lemma fill_column_length (value : option num) (c : column num) :
  length (fill_column value c) = length c.
Proof. unfold fill_column. by rewrite length_map. Qed.

Lemma fill_column_present (value : option num) (c : column num) (i : nat)
    (v : num) :
  c !! i = Some (Some v) -> fill_column value c !! i = Some (Some v).
Proof.
  intros H. unfold fill_column.
  change (map ?f c) with (f <$> c). by rewrite list_lookup_fmap, H.
Qed.



(** What the trainer's working copy is, given the three columns. *)
Lemma data_for_clustering_unfold (df : DataFrame num) (c1 c2 c3 : column num) :
  get_column "screen_time_hours" df = Ok c1 ->
  get_column "sleep_hours" df = Ok c2 ->
  get_column "productivity_0_100" df = Ok c3 ->
  let d0 := [("screen_time_hours", c1); ("sleep_hours", c2);
             ("productivity_0_100", c3)] in
  select_columns df CLUSTER_FEATURES = Ok d0 /\
  data_for_clustering mean_value df
  = Ok (if any_null d0
        then [("screen_time_hours", fill_column (column_mean mean_value c1) c1);
              ("sleep_hours", fill_column (column_mean mean_value c2) c2);
              ("productivity_0_100",
                fill_column (column_mean mean_value c3) c3)]
        else d0).
Proof.
  intros H1 H2 H3 d0.
  assert (select_columns df CLUSTER_FEATURES = Ok d0) as Hsel.
  { unfold CLUSTER_FEATURES; simpl. rewrite H1; simpl. rewrite H2; simpl.
    by rewrite H3. }
  split; [exact Hsel|].
  unfold data_for_clustering. rewrite Hsel. simpl.
  by destruct (existsb _ c1 || (existsb _ c2 || (existsb _ c3 || false))).
Qed.


End imputation.


(** The library's binary64 mean of one tenth and two tenths is
    1351079888211149 / 2^53, and the mean of the two binary64 numbers is
    10808639105689191 / 2^56: they differ by 2^-56, the tolerance the
    library's mean keeps here. *)
Lemma binary64_mean_of_tenths :
  exists (q : Q) (vs : list Q),
    binary64.value
      (binary64.mean
         [Some 0x1.999999999999ap-4; Some 0x1.999999999999ap-3; None]%float)
    = Some q /\
    mapM binary64.value
      (spec.present
         [Some 0x1.999999999999ap-4; Some 0x1.999999999999ap-3; None]%float)
    = Some vs /\
    (q == 1351079888211149 # 9007199254740992)%Q /\
    (spec.mean vs == 10808639105689191 # 72057594037927936)%Q /\
    (q - spec.mean vs == 1 # 72057594037927936)%Q /\
    (Qabs (q - spec.mean vs) <= 1 # 72057594037927936)%Q.
Proof.
  eexists _, _. split; [by vm_compute|]. split; [by vm_compute|].
  split_and!; vm_compute; congruence.
Qed.


(** ** Feature order *)

Section feature_order.

Variable mean_value : list (option Q) -> Q.

(** C1: the classifier's array has the single row (screen_time, sleep_hours,
    productivity_score), at positions 0, 1 and 2; the trainer's column list
    has screen_time_hours, sleep_hours and productivity_0_100 at the same
    positions, so the row the trainer takes from a dataset record is the row
    the classifier builds from the same three quantities; and that row is
    the one handed to the scaler, whose output is handed to the model. *)
Theorem feature_order_matches_trainer (df : DataFrame Q)
    (cs cl cp : column Q)
    (r : nat) (screen_time sleep_hours productivity_score : Q)
    (km : ClusterModel) (sc : Scaler) (X : array2d) (i : Z) (rest : list Z) :
  get_column "screen_time_hours" df = Ok cs ->
  cs !! r = Some (Some screen_time) ->
  get_column "sleep_hours" df = Ok cl ->
  cl !! r = Some (Some sleep_hours) ->
  get_column "productivity_0_100" df = Ok cp ->
  cp !! r = Some (Some productivity_score) ->
  transform sc [[screen_time; sleep_hours; productivity_score]] = Ok X ->
  predict km X = Ok (i :: rest) ->
  exists row : list Q,
    user_input sleep_hours screen_time productivity_score = [row] /\
    length row = 3%nat /\
    row !! 0%nat = Some screen_time /\
    row !! 1%nat = Some sleep_hours /\
    row !! 2%nat = Some productivity_score /\
    CLUSTER_FEATURES !! 0%nat = Some "screen_time_hours" /\
    CLUSTER_FEATURES !! 1%nat = Some "sleep_hours" /\
    CLUSTER_FEATURES !! 2%nat = Some "productivity_0_100" /\
    length CLUSTER_FEATURES = 3%nat /\
    (exists d : DataFrame Q,
        data_for_clustering mean_value df = Ok d /\
        d.*1 = CLUSTER_FEATURES /\
        frame_row d r = Some (Some <$> row)) /\
    classify_rhythm_state {| KMEANS_MODEL := Some km; SCALER := Some sc |}
      sleep_hours screen_time productivity_score
    = Ok (default "Unknown State" (CLUSTER_TO_STATE !! i)).
Proof.
  intros Hs Hsr Hl Hlr Hp Hpr Htr Hpred.
  exists [screen_time; sleep_hours; productivity_score].
  split_and!; try reflexivity.
  - destruct (data_for_clustering_unfold mean_value df cs cl cp Hs Hl Hp)
      as [_ Hd].
    eexists. split; [exact Hd|].
    destruct (any_null _); (split; [reflexivity|]);
      unfold frame_row; simpl;
      rewrite ?(fill_column_present _ _ _ _ Hsr),
        ?(fill_column_present _ _ _ _ Hlr),
        ?(fill_column_present _ _ _ _ Hpr), ?Hsr, ?Hlr, ?Hpr;
      reflexivity.
  - unfold classify_rhythm_state, classify_body, user_input; simpl.
    rewrite Htr; simpl. by rewrite Hpred.
Qed.

End feature_order.

Lemma feature_order_matches_trainer_witness :
  exists row : list Q,
    user_input 7 6 60 = [row] /\
    length row = 3%nat /\
    row !! 0%nat = Some 6%Q /\
    row !! 1%nat = Some 7%Q /\
    row !! 2%nat = Some 60%Q /\
    CLUSTER_FEATURES !! 0%nat = Some "screen_time_hours" /\
    CLUSTER_FEATURES !! 1%nat = Some "sleep_hours" /\
    CLUSTER_FEATURES !! 2%nat = Some "productivity_0_100" /\
    length CLUSTER_FEATURES = 3%nat /\
    (exists d : DataFrame Q,
        data_for_clustering exact_mean fixtures.sample_dataset = Ok d /\
        d.*1 = CLUSTER_FEATURES /\
        frame_row d 0 = Some (Some <$> row)) /\
    classify_rhythm_state fixtures.ready 7 6 60
    = Ok (default "Unknown State" (CLUSTER_TO_STATE !! 2)).
Proof.
  eapply (feature_order_matches_trainer exact_mean fixtures.sample_dataset
            _ _ _ 0 6 7 60 _ _ _ 2 []); reflexivity.
Defined.

(** ** The dashboard's dispatch *)

Lemma sentinel_is_error (s : string) :
  failure_sentinel s -> is_error_result s = true.
Proof. intros []; reflexivity. Qed.

Lemma label_is_not_error (s : string) :
  state_label s -> is_error_result s = false.
Proof.
  intros H%state_label_cases. unfold spec_labels in H.
  rewrite !elem_of_cons, elem_of_nil in H.
  destruct H as [->|[->|[->|[->|[->|[]]]]]]; reflexivity.
Qed.

Lemma label_has_styling (s : string) :
  state_label s -> is_Some (RHYTHM_STATES !! s).
Proof.
  intros H%state_label_cases. unfold spec_labels in H.
  rewrite !elem_of_cons, elem_of_nil in H.
  destruct H as [->|[->|[->|[->|[->|[]]]]]]; vm_compute; eauto.
Qed.

Lemma error_result_cases (s : string) :
  failure_sentinel s \/ state_label s ->
  (is_error_result s = true <-> failure_sentinel s) /\
  (is_error_result s = false <-> state_label s).
Proof.
  intros [Hs|Hl].
  - pose proof (sentinel_is_error s Hs) as E. rewrite E.
    split; split; try done.
    intros Hl%label_is_not_error. congruence.
  - pose proof (label_is_not_error s Hl) as E. rewrite E.
    split; split; try done.
    intros Hs%sentinel_is_error. congruence.
Qed.

(** C9: every label of the classifier's table is a key of [RHYTHM_STATES];
    hence the analysis never fails on the indexed lookup: whatever the
    globals and the inputs, it ends either in the error view, with a failure
    sentinel, or in the results view, with a label and that label's entry of
    [RHYTHM_STATES]. *)
Theorem styling_lookup_never_fails :
  (forall (i : Z) (l : string),
      CLUSTER_TO_STATE !! i = Some l -> is_Some (RHYTHM_STATES !! l)) /\
  (forall (g : Globals) (inputs : Inputs),
      exists v : View,
        analysis g inputs = Ok v /\
        match v with
        | ErrorView s => failure_sentinel s
        | ResultsView s info =>
            state_label s /\ RHYTHM_STATES !! s = Some info
        end).
Proof.
  split.
  - intros i l Hi. apply label_has_styling. by exists i.
  - intros g inputs. unfold analysis.
    destruct (classify_returns g (sleep_hours inputs) (screen_time_in inputs)
                (productivity_score inputs)) as (s & -> & Hs).
    simpl. destruct Hs as [Hs|Hl].
    + rewrite (sentinel_is_error s Hs). by exists (ErrorView s).
    + rewrite (label_is_not_error s Hl).
      destruct (label_has_styling s Hl) as [info Hinfo].
      exists (ResultsView s info). unfold getitem. rewrite Hinfo. by simpl.
Qed.

(** C10: on a string the classifier returns, the dashboard's error test
    holds exactly when the string is a failure sentinel and fails exactly
    when it is a label of the table; none of the five labels contains
    "Error" or equals "Unknown State", and each of the four sentinels passes
    the test. *)
Theorem error_test_sound_and_complete (g : Globals)
    (sleep_hours screen_time productivity_score : Q) (s : string) :
  classify_rhythm_state g sleep_hours screen_time productivity_score = Ok s ->
  (is_error_result s = true <-> failure_sentinel s) /\
  (is_error_result s = false <-> state_label s) /\
  (forall l : string, l ∈ spec_labels ->
     contains "Error" l = false /\ l <> "Unknown State") /\
  (forall t : string, failure_sentinel t ->
     contains "Error" t = true \/ t = "Unknown State").
Proof.
  intros Hs.
  destruct (classify_returns g sleep_hours screen_time productivity_score)
    as (s' & Hs' & Hcases).
  rewrite Hs in Hs'. injection Hs' as <-.
  destruct (error_result_cases s Hcases) as [H1 H2].
  split_and!; [exact H1 | exact H2 | |].
  - intros l Hl. unfold spec_labels in Hl.
    rewrite !elem_of_cons, elem_of_nil in Hl.
    destruct Hl as [->|[->|[->|[->|[->|[]]]]]]; split;
      first [reflexivity | discriminate].
  - intros t []; first [by left | by right].
Qed.

Lemma error_test_sound_and_complete_witness :
  (is_error_result "Flow State" = true <-> failure_sentinel "Flow State") /\
  (is_error_result "Flow State" = false <-> state_label "Flow State") /\
  (forall l : string, l ∈ spec_labels ->
     contains "Error" l = false /\ l <> "Unknown State") /\
  (forall t : string, failure_sentinel t ->
     contains "Error" t = true \/ t = "Unknown State").
Proof.
  apply (error_test_sound_and_complete fixtures.ready 8 2 85 "Flow State").
  reflexivity.
Defined.

(** ** Determinism and order sensitivity *)

Section read_only_artifacts.

Context {World : Type}.




End read_only_artifacts.


(** The hypothesis is needed: a model object that changes at each call
    gives the same inputs two different strings. *)
Lemma counting_model_changes_its_answer :
  (calls_in_sequence fixtures.counting_objects
     [fixtures.morning; fixtures.morning] 0%nat).1
  = [Ok "Burnout State"; Ok "Flow State"] /\
  forall pure : Globals, ~ artifacts_read_only fixtures.counting_objects pure.
Proof.
  split; [reflexivity|].
  intros pure [Hkm _]. simpl in Hkm.
  destruct (KMEANS_MODEL pure) as [km|]; [|done].
  specialize (Hkm [] 0%nat). discriminate Hkm.
Qed.

(** C7: there are a fitted scaler, a fitted model with five distinct
    centroids and an input triple for which exchanging the sleep and the
    productivity values changes the label: five hours of sleep with
    productivity 10 at ten hours of screen time is "Burnout State", ten
    hours of sleep with productivity 5 is "Digital Drift State". *)
Theorem feature_order_is_load_bearing :
  exists (p : StandardScaler) (m : KMeans)
         (sleep screen productivity : Q) (l1 l2 : string),
    length (mean_ p) = 3%nat /\ length (scale_ p) = 3%nat /\
    length (cluster_centers_ m) = 5%nat /\
    pairwise_apart (cluster_centers_ m) = true /\
    Forall (fun c => length c = 3%nat) (cluster_centers_ m) /\
    let g := {| KMEANS_MODEL := Some (kmeans_artifact (Some m));
                SCALER := Some (scaler_artifact (Some p)) |} in
    classify_rhythm_state g sleep screen productivity = Ok l1 /\
    classify_rhythm_state g productivity screen sleep = Ok l2 /\
    state_label l1 /\ state_label l2 /\ l1 <> l2.
Proof.
  exists fixtures.fitted_scaler, fixtures.fitted_kmeans, 5%Q, 10%Q, 10%Q,
    "Burnout State", "Digital Drift State".
  split_and!; try reflexivity.
  - repeat constructor.
  - intros g. split_and!; try reflexivity.
    + exists 0%Z. reflexivity.
    + exists 4%Z. reflexivity.
    + discriminate.
Qed.

(** * Further properties of the trainer's working copy *)

Section working_copy.

Context {num : Type} (mean_value : list (option num) -> num).

Lemma get_column_Ok (name : string) (df : DataFrame num) (c : column num) :
  get_column name df = Ok c -> (name, c) ∈ df.
Proof.
  induction df as [|[n c'] df IH]; simpl; [discriminate|].
  destruct (String.eqb_spec n name) as [->|Hne].
  - intros [= ->]. by left.
  - intros H. right. by apply IH.
Qed.

Lemma get_column_Raise (name : string) (df : DataFrame num) (e : exn) :
  get_column name df = Raise e -> e = mk_exn KeyError name /\ name ∉ df.*1.
Proof.
  induction df as [|[n c'] df IH]; simpl.
  - intros [= <-]. split; [done|]. apply not_elem_of_nil.
  - destruct (String.eqb_spec n name) as [->|Hne]; [discriminate|].
    intros [He Hn]%IH. split; [exact He|].
    rewrite not_elem_of_cons. split; [congruence|exact Hn].
Qed.

Lemma get_column_present (name : string) (df : DataFrame num) :
  name ∈ df.*1 <-> exists c : column num, get_column name df = Ok c.
Proof.
  split.
  - intros Hin. destruct (get_column name df) as [c|e] eqn:E; [by exists c|].
    by apply get_column_Raise in E as [_ Hn].
  - intros [c Hc%get_column_Ok].
    apply list_elem_of_fmap. by exists (name, c).
Qed.

Lemma select_columns_Ok (df : DataFrame num) (names : list string) (d : DataFrame num) :
  select_columns df names = Ok d ->
  d.*1 = names /\
  forall (n : string) (c : column num), (n, c) ∈ d -> get_column n df = Ok c.
Proof.
  revert d. induction names as [|n names IH]; intros d; simpl.
  - intros [= <-]. split; [done|]. intros n c H. by apply elem_of_nil in H.
  - destruct (get_column n df) as [c|e] eqn:E; simpl; [|discriminate].
    destruct (select_columns df names) as [rest|e]; simpl; [|discriminate].
    intros [= <-]. destruct (IH rest eq_refl) as [Hn Hc]. split.
    + by rewrite fmap_cons, Hn.
    + intros n' c' [[= -> ->]|H]%elem_of_cons; [exact E|by apply Hc].
Qed.

Lemma select_columns_Raise (df : DataFrame num) (names : list string) (e : exn) :
  select_columns df names = Raise e ->
  exn_cls e = KeyError /\ exists n : string, n ∈ names /\ n ∉ df.*1.
Proof.
  induction names as [|n names IH]; simpl; [discriminate|].
  destruct (get_column n df) as [c|e'] eqn:E; simpl.
  - destruct (select_columns df names) as [rest|e'']; simpl; [discriminate|].
    intros [= <-]. destruct (IH eq_refl) as (Hk & m & Hm & Hnot).
    split; [exact Hk|]. exists m. split; [by right|exact Hnot].
  - intros [= <-]. apply get_column_Raise in E as [-> Hnot].
    split; [done|]. exists n. split; [by left|exact Hnot].
Qed.

Lemma data_for_clustering_select (df : DataFrame num) :
  match select_columns df CLUSTER_FEATURES with
  | Ok d0 =>
      data_for_clustering mean_value df
      = Ok (if any_null d0 then fillna d0 (frame_mean mean_value d0) else d0)
  | Raise e => data_for_clustering mean_value df = Raise e
  end.
Proof.
  unfold data_for_clustering.
  destruct (select_columns df CLUSTER_FEATURES) as [d0|e]; simpl; [|done].
  by destruct (any_null d0).
Qed.

Lemma features_present_columns (df : DataFrame num) :
  (forall n : string, n ∈ CLUSTER_FEATURES -> n ∈ df.*1) ->
  exists c1 c2 c3 : column num,
    get_column "screen_time_hours" df = Ok c1 /\
    get_column "sleep_hours" df = Ok c2 /\
    get_column "productivity_0_100" df = Ok c3.
Proof.
  intros Hall.
  destruct (proj1 (get_column_present "screen_time_hours" df)) as [c1 H1];
    [apply Hall; compute_done|].
  destruct (proj1 (get_column_present "sleep_hours" df)) as [c2 H2];
    [apply Hall; compute_done|].
  destruct (proj1 (get_column_present "productivity_0_100" df)) as [c3 H3];
    [apply Hall; compute_done|].
  by exists c1, c2, c3.
Qed.

(** X1: the working copy exists exactly when the dataset has the three
    feature columns; otherwise the selection raises [KeyError] for a feature
    the dataset lacks.  When it exists it has exactly the three feature
    columns, in the order of [CLUSTER_FEATURES] whatever the order and the
    other columns of the dataset, each as long as the column it comes
    from. *)
Theorem working_copy_shape (df : DataFrame num) :
  ((exists d : DataFrame num, data_for_clustering mean_value df = Ok d) <->
   (forall n : string, n ∈ CLUSTER_FEATURES -> n ∈ df.*1)) /\
  (forall e : exn,
      data_for_clustering mean_value df = Raise e ->
      exn_cls e = KeyError /\
      exists n : string, n ∈ CLUSTER_FEATURES /\ n ∉ df.*1) /\
  (forall d : DataFrame num,
      data_for_clustering mean_value df = Ok d ->
      d.*1 = CLUSTER_FEATURES /\
      forall (n : string) (c : column num),
        (n, c) ∈ d ->
        exists c0 : column num, get_column n df = Ok c0 /\ length c = length c0).
Proof.
  pose proof (data_for_clustering_select df) as Hsel.
  destruct (select_columns df CLUSTER_FEATURES) as [d0|e0] eqn:E.
  - destruct (select_columns_Ok _ _ _ E) as [Hnames Hcols].
    split_and!.
    + split; [|eauto]. intros _ n Hn. apply get_column_present.
      rewrite <- Hnames in Hn. apply list_elem_of_fmap in Hn as [[n' c] [-> Hin]].
      exists c. by apply Hcols.
    + intros e He. congruence.
    + intros d Hd. rewrite Hsel in Hd. injection Hd as <-.
      destruct (any_null d0); [|split; [exact Hnames|]].
      * split.
        { unfold fillna. rewrite <- Hnames.
          change (map ?f d0) with (f <$> d0). rewrite <- list_fmap_compose.
          by apply list_fmap_ext. }
        intros n c Hin. unfold fillna in Hin.
        change (map ?f d0) with (f <$> d0) in Hin.
        apply list_elem_of_fmap in Hin as [[n0 c0] [[= -> ->] Hin]].
        exists c0. split; [by apply Hcols|]. apply fill_column_length.
      * intros n c Hin. exists c. split; [by apply Hcols|done].
  - destruct (select_columns_Raise _ _ _ E) as (Hk & n & Hn & Hnot).
    split_and!.
    + split; [intros [d Hd]; congruence|].
      intros Hall. exfalso. apply Hnot. by apply Hall.
    + intros e He. rewrite Hsel in He. injection He as <-. eauto.
    + intros d Hd. congruence.
Qed.

Lemma working_copy_cases (df d : DataFrame num) :
  data_for_clustering mean_value df = Ok d ->
  exists c1 c2 c3 : column num,
    get_column "screen_time_hours" df = Ok c1 /\
    get_column "sleep_hours" df = Ok c2 /\
    get_column "productivity_0_100" df = Ok c3 /\
    d = if existsb is_null c1 || (existsb is_null c2 || existsb is_null c3)
        then [("screen_time_hours", fill_column (column_mean mean_value c1) c1);
              ("sleep_hours", fill_column (column_mean mean_value c2) c2);
              ("productivity_0_100", fill_column (column_mean mean_value c3) c3)]
        else [("screen_time_hours", c1); ("sleep_hours", c2);
              ("productivity_0_100", c3)].
Proof.
  intros Hd. pose proof (data_for_clustering_select df) as Hsel.
  destruct (select_columns df CLUSTER_FEATURES) as [d0|e0] eqn:E;
    [|congruence].
  destruct (select_columns_Ok _ _ _ E) as [Hnames Hcols].
  destruct (features_present_columns df) as (c1 & c2 & c3 & H1 & H2 & H3).
  { intros n Hn. apply get_column_present. rewrite <- Hnames in Hn.
    apply list_elem_of_fmap in Hn as [[n' c] [-> Hin]]. exists c. by apply Hcols. }
  exists c1, c2, c3. split_and!; try done.
  destruct (data_for_clustering_unfold mean_value df c1 c2 c3 H1 H2 H3) as [_ Hd'].
  rewrite Hd in Hd'. injection Hd' as ->. simpl.
  by rewrite orb_false_r.
Qed.

Lemma column_mean_None (c : column num) :
  column_mean mean_value c = None <-> spec.present c = [].
Proof.
  unfold column_mean. rewrite <- (length_zero_iff_nil (spec.present c)).
  rewrite <- count_valid_present. by destruct (count_valid c).
Qed.

Lemma fill_column_None (c : column num) : fill_column None c = c.
Proof.
  unfold fill_column. induction c as [|[v|] c IH]; simpl; by rewrite ?IH.
Qed.

Lemma fill_column_no_null (value : option num) (c : column num) :
  existsb is_null c = false -> fill_column value c = c.
Proof.
  unfold fill_column. induction c as [|[v|] c IH]; simpl; [done| |done].
  intros H. by rewrite IH.
Qed.

Lemma fill_column_Some_no_null (m : num) (c : column num) :
  existsb is_null (fill_column (Some m) c) = false.
Proof.
  unfold fill_column. induction c as [|[v|] c IH]; simpl; done.
Qed.

Lemma all_null_present (c : column num) :
  spec.present c = [] -> c <> [] -> existsb is_null c = true.
Proof.
  destruct c as [|[v|] c]; simpl; [done| |done].
  intros H. by change (spec.present (Some v :: c)) with (v :: spec.present c) in H.
Qed.

Lemma present_fill_column (c : column num) :
  existsb is_null (fill_column (column_mean mean_value c) c) = true ->
  column_mean mean_value c = None.
Proof.
  destruct (column_mean mean_value c) as [m|]; [|done].
  by rewrite fill_column_Some_no_null.
Qed.



Lemma fill_column_twice (c : column num) :
  fill_column (column_mean mean_value (fill_column (column_mean mean_value c) c))
    (fill_column (column_mean mean_value c) c)
  = fill_column (column_mean mean_value c) c.
Proof.
  destruct (column_mean mean_value c) as [m|] eqn:E.
  - apply fill_column_no_null, fill_column_Some_no_null.
  - rewrite !fill_column_None, E. apply fill_column_None.
Qed.

(** X3: a feature column with no value at all has no mean to be filled
    with: it comes out of the imputation as it went in, so that, unless it
    is empty, the working copy still holds missing values. *)
Theorem all_missing_column_stays_missing (df d : DataFrame num) (n : string)
    (c0 : column num) :
  n ∈ CLUSTER_FEATURES ->
  get_column n df = Ok c0 ->
  spec.present c0 = [] ->
  data_for_clustering mean_value df = Ok d ->
  get_column n d = Ok c0 /\ (c0 <> [] -> any_null d = true).
Proof.
  intros Hn Hc0 Hp Hd.
  destruct (working_copy_cases df d Hd) as (c1 & c2 & c3 & H1 & H2 & H3 & ->).
  apply column_mean_None in Hp as Hm.
  unfold CLUSTER_FEATURES in Hn. rewrite !elem_of_cons, elem_of_nil in Hn.
  destruct (existsb is_null c1 || (existsb is_null c2 || existsb is_null c3))
    eqn:Hb.
  - destruct Hn as [->|[->|[->|[]]]];
      rewrite ?H1, ?H2, ?H3 in Hc0; injection Hc0 as ->;
      rewrite Hm, fill_column_None; (split; [reflexivity|]);
      intros Hne; unfold any_null; simpl;
      rewrite (all_null_present c0 Hp Hne); by rewrite ?orb_true_r.
  - apply orb_false_elim in Hb as [N1 Hb].
    apply orb_false_elim in Hb as [N2 N3].
    destruct Hn as [->|[->|[->|[]]]];
      rewrite ?H1, ?H2, ?H3 in Hc0; injection Hc0 as ->;
      (split; [reflexivity|]); intros Hne;
      pose proof (all_null_present c0 Hp Hne); congruence.
Qed.

(** X4: the selection and imputation step is idempotent: run on its own
    result it returns that result unchanged. *)
Theorem imputation_is_idempotent (df d : DataFrame num) :
  data_for_clustering mean_value df = Ok d -> data_for_clustering mean_value d = Ok d.
Proof.
  intros Hd.
  destruct (working_copy_cases df d Hd) as (c1 & c2 & c3 & H1 & H2 & H3 & ->).
  destruct (existsb is_null c1 || (existsb is_null c2 || existsb is_null c3))
    eqn:Hb.
  - match goal with |- data_for_clustering mean_value ?d = _ =>
      destruct (data_for_clustering_unfold mean_value d _ _ _ eq_refl eq_refl eq_refl)
        as [_ ->]
    end.
    rewrite !fill_column_twice. by destruct (any_null _).
  - match goal with |- data_for_clustering mean_value ?d = _ =>
      destruct (data_for_clustering_unfold mean_value d _ _ _ eq_refl eq_refl eq_refl)
        as [_ ->]
    end.
    unfold any_null; simpl. by rewrite orb_false_r, Hb.
Qed.

End working_copy.


(** A dataset whose sleep column was never filled in. *)
Lemma all_missing_column_stays_missing_witness :
  get_column "sleep_hours"
    [ ("screen_time_hours", [Some 6; None]%Q);
      ("sleep_hours", [None; None]);
      ("productivity_0_100", [Some 60; Some 40]%Q) ]
  = Ok [None; None] /\
  ([None; None] <> ([] : column Q) ->
   any_null
     [ ("screen_time_hours", [Some 6; Some 6]%Q);
       ("sleep_hours", [None; None]);
       ("productivity_0_100", [Some 60; Some 40]%Q) ] = true).
Proof.
  apply (all_missing_column_stays_missing exact_mean
           [ ("screen_time_hours", [Some 6; None]%Q);
             ("sleep_hours", [None; None]);
             ("productivity_0_100", [Some 60; Some 40]%Q) ]
           [ ("screen_time_hours", [Some 6; Some 6]%Q);
             ("sleep_hours", [None; None]);
             ("productivity_0_100", [Some 60; Some 40]%Q) ]
           "sleep_hours" [None; None]);
    [compute_done | reflexivity | reflexivity | reflexivity].
Defined.

Lemma imputation_is_idempotent_witness :
  data_for_clustering exact_mean
    [ ("screen_time_hours", [Some 6; Some 10; Some 2]%Q);
      ("sleep_hours", [Some 7; Some (15 # 2); Some 8]%Q);
      ("productivity_0_100", [Some 60; Some 40; Some 85]%Q) ]
  = Ok [ ("screen_time_hours", [Some 6; Some 10; Some 2]%Q);
         ("sleep_hours", [Some 7; Some (15 # 2); Some 8]%Q);
         ("productivity_0_100", [Some 60; Some 40; Some 85]%Q) ].
Proof.
  apply (imputation_is_idempotent exact_mean fixtures.sample_dataset). reflexivity.
Defined.

(** * Further properties of the classifier module *)

(** X6: the import leaves the two globals both set or both [None], never
    one of each: both set exactly when both loads succeeded, both [None]
    exactly when the first load to fail found no file (a missing model file
    hiding whatever state the scaler file is in).  When the import raises,
    it raises the exception of the first failing load, which is not a
    [FileNotFoundError]. *)
Theorem import_sets_both_globals_or_neither (fs : Storage) :
  (forall g : Globals,
      import_module fs = Ok g ->
      (exists (km : ClusterModel) (sc : Scaler),
          load_kmeans_model fs = Ok km /\ load_scaler fs = Ok sc /\
          KMEANS_MODEL g = Some km /\ SCALER g = Some sc) \/
      (KMEANS_MODEL g = None /\ SCALER g = None /\
       (file_missing (load_kmeans_model fs) \/
        ((exists km : ClusterModel, load_kmeans_model fs = Ok km) /\
         file_missing (load_scaler fs))))) /\
  (forall e : exn,
      import_module fs = Raise e ->
      exn_cls e <> FileNotFoundError /\
      (load_kmeans_model fs = Raise e \/
       ((exists km : ClusterModel, load_kmeans_model fs = Ok km) /\
        load_scaler fs = Raise e))).
Proof.
  unfold import_module, load_both, file_missing.
  destruct (load_kmeans_model fs) as [km|[cls msg]] eqn:Ekm; simpl.
  - destruct (load_scaler fs) as [sc|[cls msg]] eqn:Esc; simpl.
    + split; [|discriminate]. intros g [= <-]. left. by exists km, sc.
    + destruct cls; split; try discriminate.
      * intros g [= <-]. right. do 2 (split; [reflexivity|]). right.
        split; eauto.
      * intros e [= <-]. split; [simpl; discriminate|]. right. eauto.
      * intros e [= <-]. split; [simpl; discriminate|]. right. eauto.
      * intros e [= <-]. split; [simpl; discriminate|]. right. eauto.
  - destruct cls; split; try discriminate.
    + intros g [= <-]. right. do 2 (split; [reflexivity|]). left. eauto.
    + intros e [= <-]. split; [simpl; discriminate|]. by left.
    + intros e [= <-]. split; [simpl; discriminate|]. by left.
    + intros e [= <-]. split; [simpl; discriminate|]. by left.
Qed.

Lemma sentinel_is_not_label (s : string) :
  failure_sentinel s -> state_label s -> False.
Proof.
  intros Hs%sentinel_is_error Hl%label_is_not_error. congruence.
Qed.

(** X7: a label is returned only through the table: when the classifier's
    result is one of the labels, both artifacts were loaded, [transform] and
    [predict] both succeeded, and the label is the table's entry for the
    first index predicted, an index from 0 to 4. *)
Theorem label_comes_from_the_table (g : Globals)
    (sleep_hours screen_time productivity_score : Q) (l : string) :
  classify_rhythm_state g sleep_hours screen_time productivity_score = Ok l ->
  state_label l ->
  exists (km : ClusterModel) (sc : Scaler) (X : array2d) (i : Z)
         (rest : list Z),
    KMEANS_MODEL g = Some km /\ SCALER g = Some sc /\
    transform sc (user_input sleep_hours screen_time productivity_score)
    = Ok X /\
    predict km X = Ok (i :: rest) /\
    CLUSTER_TO_STATE !! i = Some l /\ 0 <= i <= 4.
Proof.
  unfold classify_rhythm_state. intros Hc Hl.
  destruct (KMEANS_MODEL g) as [km|];
    [|injection Hc as <-; destruct (sentinel_is_not_label _ sentinel_unavailable Hl)].
  destruct (SCALER g) as [sc|];
    [|injection Hc as <-; destruct (sentinel_is_not_label _ sentinel_unavailable Hl)].
  exists km, sc. revert Hc. unfold classify_body.
  destruct (transform sc _) as [X|e] eqn:EX; simpl.
  - destruct (predict km X) as [[|i rest]|e] eqn:EP; simpl.
    + intros [= <-]. destruct (sentinel_is_not_label _ (sentinel_generic _) Hl).
    + intros [= <-]. exists X, i, rest.
      destruct (CLUSTER_TO_STATE !! i) as [l'|] eqn:Ei; simpl in *.
      * assert (0 <= i <= 4) as Hi.
        { destruct (decide (0 <= i <= 4)) as [|Hn]; [done|].
          apply CLUSTER_TO_STATE_none in Hn. congruence. }
        split_and!; try done; lia.
      * destruct (sentinel_is_not_label _ sentinel_unknown Hl).
    + intros He. destruct (classify_handlers_sentinel e) as (s & Hs & Hsent & _).
      rewrite Hs in He. injection He as <-.
      destruct (sentinel_is_not_label _ Hsent Hl).
  - intros He. destruct (classify_handlers_sentinel e) as (s & Hs & Hsent & _).
    rewrite Hs in He. injection He as <-.
    destruct (sentinel_is_not_label _ Hsent Hl).
Qed.

Lemma label_comes_from_the_table_witness :
  exists (km : ClusterModel) (sc : Scaler) (X : array2d) (i : Z)
         (rest : list Z),
    KMEANS_MODEL fixtures.ready = Some km /\
    SCALER fixtures.ready = Some sc /\
    transform sc (user_input 8 2 85) = Ok X /\
    predict km X = Ok (i :: rest) /\
    CLUSTER_TO_STATE !! i = Some "Flow State" /\ 0 <= i <= 4.
Proof.
  apply (label_comes_from_the_table fixtures.ready 8 2 85 "Flow State");
    [reflexivity | by exists 1].
Defined.

(** * Properties of the key lookup at startup *)

Import app_setup.

(** X9: the key returned is the secret whenever Streamlit's secrets hold
    one, even an empty one; the environment variable is used only when the
    secret is missing ([KeyError]), and only when it is not empty. *)
Theorem gemini_key_sources (env : Environment) (k : string) :
  load_gemini_key env = Ok k <->
  (exists m : gmap string string,
      secrets env = Ok m /\ m !! "GEMINI_API_KEY" = Some k) \/
  (((exists m : gmap string string,
        secrets env = Ok m /\ m !! "GEMINI_API_KEY" = None) \/
    (exists e : exn, secrets env = Raise e /\ exn_cls e = KeyError)) /\
   environ env !! "GEMINI_API_KEY" = Some k /\ k <> "").
Proof.
  unfold load_gemini_key, secrets_getitem, truthy.
  destruct (secrets env) as [m|[cls msg]] eqn:Es; simpl.
  - destruct (m !! "GEMINI_API_KEY") as [v|] eqn:Ev; simpl.
    + split.
      * intros [= ->]. left. by exists m.
      * intros [(m' & [= <-] & Hk)|[[(m' & [= <-] & Hk)|(e & He & _)] _]];
          congruence.
    + destruct (environ env !! "GEMINI_API_KEY") as [key|] eqn:Ek.
      * destruct (String.eqb_spec key "") as [->|Hne]; simpl.
        -- split; [discriminate|].
           intros [(m' & [= <-] & Hk)|(_ & [= <-] & Hne)]; congruence.
        -- split.
           ++ intros [= ->]. right. split_and!; try done. left. by exists m.
           ++ intros [(m' & [= <-] & Hk)|(_ & [= <-] & _)]; congruence.
      * split; [discriminate|].
        intros [(m' & [= <-] & Hk)|(_ & Hk & _)]; congruence.
  - destruct cls; simpl;
      try (split; [discriminate|];
           intros [(m' & Hm & _)|[[(m' & Hm & _)|(e & [= <-] & Hc)] _]];
           discriminate).
    destruct (environ env !! "GEMINI_API_KEY") as [key|] eqn:Ek.
    + destruct (String.eqb_spec key "") as [->|Hne]; simpl.
      * split; [discriminate|].
        intros [(m' & Hm & _)|(_ & [= <-] & Hne)]; congruence.
      * split.
        -- intros [= ->]. right. split_and!; try done. right. eauto.
        -- intros [(m' & Hm & _)|(_ & [= <-] & _)]; congruence.
    + split; [discriminate|].
      intros [(m' & Hm & _)|(_ & Hk & _)]; congruence.
Qed.

(** X10: the script gets past the key lookup exactly when a key was found
    and the client could be built from it; otherwise it stops on the notice
    "Error loading API Key: " followed by the cause.  A failure of the
    secrets other than a missing key stops it even when the environment
    variable holds a key, and the lookup itself never raises [KeyError]. *)
Theorem startup_outcomes {Client : Type}
    (make_client : string -> result Client) (env : Environment) :
  (forall (k : string) (c : Client),
      startup make_client env = Running k c <->
      load_gemini_key env = Ok k /\ make_client k = Ok c) /\
  (forall notice : string,
      startup make_client env = Halted notice ->
      exists e : exn,
        notice = "Error loading API Key: " ++ exn_msg e /\
        (load_gemini_key env = Raise e \/
         exists k : string,
           load_gemini_key env = Ok k /\ make_client k = Raise e)) /\
  (forall e : exn,
      secrets env = Raise e -> exn_cls e <> KeyError ->
      load_gemini_key env = Raise e /\
      startup make_client env
      = Halted ("Error loading API Key: " ++ exn_msg e)) /\
  (forall e : exn, load_gemini_key env = Raise e -> exn_cls e <> KeyError).
Proof.
  split_and!.
  - intros k c. unfold startup.
    destruct (load_gemini_key env) as [k'|e]; simpl.
    + destruct (make_client k') as [c'|e] eqn:Ec; simpl.
      * split; [intros [= <- <-]; by split|].
        intros [[= <-] Hc]. rewrite Ec in Hc. by injection Hc as <-.
      * split; [discriminate|]. intros [[= <-] Hc]. congruence.
    + split; [discriminate|]. intros [? _]. discriminate.
  - intros notice. unfold startup.
    destruct (load_gemini_key env) as [k'|e]; simpl.
    + destruct (make_client k') as [c'|e] eqn:Ec; simpl; [discriminate|].
      intros [= <-]. exists e. split; [done|]. right. by exists k'.
    + intros [= <-]. exists e. split; [done|]. by left.
  - intros [cls msg] Hs Hc.
    assert (load_gemini_key env = Raise (mk_exn cls msg)) as Hl.
    { unfold load_gemini_key, secrets_getitem. rewrite Hs. simpl.
      by destruct cls. }
    split; [exact Hl|]. unfold startup. by rewrite Hl.
  - intros e. unfold load_gemini_key, secrets_getitem, truthy, key_not_found.
    destruct (secrets env) as [m|[cls msg]]; simpl.
    + destruct (m !! "GEMINI_API_KEY"); simpl; [discriminate|].
      destruct (environ env !! "GEMINI_API_KEY") as [key|];
        [destruct (negb _)|]; intros [= <-]; simpl; discriminate.
    + destruct cls; simpl; try (intros [= <-]; simpl; discriminate).
      destruct (environ env !! "GEMINI_API_KEY") as [key|];
        [destruct (negb _)|]; intros [= <-]; simpl; discriminate.
Qed.

(** * Properties of the prompt *)

Import app_prompt.

Lemma string_app_assoc (a b c : string) : (a ++ b) ++ c = a ++ (b ++ c).
Proof.
  induction a as [|x a IH]; [reflexivity|].
  change (String x ((a ++ b) ++ c) = String x (a ++ (b ++ c))). by f_equal.
Qed.

Lemma prefix_append (s t : string) : String.prefix s (s ++ t) = true.
Proof.
  induction s as [|a s IH]; [by destruct t|].
  change (String.prefix (String a s) (String a (s ++ t)) = true). simpl.
  by destruct (Ascii.ascii_dec a a).
Qed.

Lemma contains_unfold (needle haystack : string) :
  contains needle haystack
  = String.prefix needle haystack ||
    match haystack with
    | EmptyString => false
    | String _ rest => contains needle rest
    end.
Proof. by destruct haystack. Qed.

Lemma contains_here (needle rest : string) :
  contains needle (needle ++ rest) = true.
Proof. by rewrite contains_unfold, prefix_append. Qed.

Lemma contains_skip (skipped needle rest : string) :
  contains needle rest = true -> contains needle (skipped ++ rest) = true.
Proof.
  intros H. induction skipped as [|a s IH]; [done|].
  change (String a s ++ rest) with (String a (s ++ rest)).
  rewrite contains_unfold, IH. apply orb_true_r.
Qed.

Lemma contains_middle (before needle after : string) :
  contains needle (before ++ needle ++ after) = true.
Proof. apply contains_skip, contains_here. Qed.

Lemma getitem_unknown_state :
  getitem "Unknown State"
  = Ok {| productivity := "N/A"; screen_time := "N/A"; sleep := "N/A";
          color := "gray"; icon := "‚ùì" |}.
Proof. reflexivity. Qed.

Lemma contains_of_prefix (needle haystack : string) :
  String.prefix needle haystack = true -> contains needle haystack = true.
Proof. intros H. by rewrite contains_unfold, H. Qed.

Lemma prefix_app_same (n x y : string) :
  String.prefix x y = true -> String.prefix (n ++ x) (n ++ y) = true.
Proof.
  intros H. induction n as [|a n IH]; [done|].
  change (String.prefix (String a (n ++ x)) (String a (n ++ y)) = true).
  simpl. by destruct (Ascii.ascii_dec a a).
Qed.

Ltac prompt_reduce :=
  cbv beta iota delta [mbind mret result_bind result_ret Py.bind].

(** X11: for every state name, known to the styling table or not, and every
    dictionary holding the four keys, the prompt is built; it carries the
    state name, the goal, the line of the three metrics and the line of the
    state's characteristics, which are those of the state's own entry of
    [RHYTHM_STATES] when it has one and "N/A" throughout otherwise. *)
Theorem prompt_carries_state_and_inputs (state_name goal screen_time_text
    sleep_hours_text productivity_score_text : string)
    (user_data : gmap string string) :
  user_data !! "goal" = Some goal ->
  user_data !! "screen_time" = Some screen_time_text ->
  user_data !! "sleep_hours" = Some sleep_hours_text ->
  user_data !! "productivity_score" = Some productivity_score_text ->
  exists (p : string) (details : StateInfo),
    generate_llm_prompt state_name user_data = Ok p /\
    state_details_of state_name = Ok details /\
    (RHYTHM_STATES !! state_name = Some details \/
     (RHYTHM_STATES !! state_name = None /\
      productivity details = "N/A" /\ app.screen_time details = "N/A" /\
      sleep details = "N/A")) /\
    contains state_name p = true /\
    contains goal p = true /\
    contains (productivity details ++ " Productivity, "
              ++ app.screen_time details ++ " Screen Time, "
              ++ sleep details ++ " Sleep.") p = true /\
    contains (screen_time_text ++ " hours screen time, "
              ++ sleep_hours_text ++ " hours sleep, "
              ++ productivity_score_text ++ "% productivity.") p = true.
Proof.
  intros Hg Hs Hl Hp.
  unfold generate_llm_prompt, state_details_of, user_data_getitem.
  rewrite getitem_unknown_state, Hg, Hs, Hl, Hp. prompt_reduce.
  set (details := default _ (RHYTHM_STATES !! state_name)).
  eexists _, details. split; [reflexivity|]. split; [reflexivity|].
  split_and!.
  - subst details. destruct (RHYTHM_STATES !! state_name) as [d|]; [by left|].
    right. by split_and!.
  - apply contains_middle.
  - do 9 apply contains_skip. apply contains_here.
  - do 3 apply contains_skip. apply contains_of_prefix.
    do 5 apply prefix_app_same. reflexivity.
  - do 11 apply contains_skip. apply contains_of_prefix.
    do 5 apply prefix_app_same. reflexivity.
Qed.

Lemma prompt_carries_state_and_inputs_witness :
  exists (p : string) (details : StateInfo),
    generate_llm_prompt "Classification Error"
      {[ "goal" := "Finish presentation deck"; "screen_time" := "8.0";
         "sleep_hours" := "7.0"; "productivity_score" := "60" ]} = Ok p /\
    state_details_of "Classification Error" = Ok details /\
    (RHYTHM_STATES !! "Classification Error" = Some details \/
     (RHYTHM_STATES !! "Classification Error" = None /\
      productivity details = "N/A" /\ app.screen_time details = "N/A" /\
      sleep details = "N/A")) /\
    contains "Classification Error" p = true /\
    contains "Finish presentation deck" p = true /\
    contains (productivity details ++ " Productivity, "
              ++ app.screen_time details ++ " Screen Time, "
              ++ sleep details ++ " Sleep.") p = true /\
    contains ("8.0" ++ " hours screen time, "
              ++ "7.0" ++ " hours sleep, "
              ++ "60" ++ "% productivity.") p = true.
Proof.
  apply (prompt_carries_state_and_inputs "Classification Error"
           "Finish presentation deck" "8.0" "7.0" "60"); reflexivity.
Defined.

(** The keys of [user_data] the prompt reads, in the order it reads them. *)
Lemma prompt_keys_read (state_name : string) (user_data : gmap string string) :
  match user_data !! "goal", user_data !! "screen_time",
        user_data !! "sleep_hours", user_data !! "productivity_score" with
  | Some _, Some _, Some _, Some _ =>
      exists p : string, generate_llm_prompt state_name user_data = Ok p
  | None, _, _, _ =>
      generate_llm_prompt state_name user_data = Raise (mk_exn KeyError "goal")
  | Some _, None, _, _ =>
      generate_llm_prompt state_name user_data
      = Raise (mk_exn KeyError "screen_time")
  | Some _, Some _, None, _ =>
      generate_llm_prompt state_name user_data
      = Raise (mk_exn KeyError "sleep_hours")
  | Some _, Some _, Some _, None =>
      generate_llm_prompt state_name user_data
      = Raise (mk_exn KeyError "productivity_score")
  end.
Proof.
  unfold generate_llm_prompt, state_details_of, user_data_getitem.
  rewrite getitem_unknown_state. prompt_reduce.
  destruct (user_data !! "goal"); [|reflexivity].
  destruct (user_data !! "screen_time"); [|reflexivity].
  destruct (user_data !! "sleep_hours"); [|reflexivity].
  destruct (user_data !! "productivity_score"); [|reflexivity].
  eexists. reflexivity.
Qed.

(** X12: whatever the state name, the prompt is built exactly when the
    dictionary holds the keys "goal", "screen_time", "sleep_hours" and
    "productivity_score"; otherwise [KeyError] is raised for the first of
    them, in that order, that the dictionary lacks.  The state name never
    causes a [KeyError]. *)
Theorem prompt_needs_the_four_keys (state_name : string)
    (user_data : gmap string string) :
  ((exists p : string, generate_llm_prompt state_name user_data = Ok p) <->
   (forall k : string,
       k ∈ ["goal"; "screen_time"; "sleep_hours"; "productivity_score"] ->
       is_Some (user_data !! k))) /\
  (forall e : exn,
      generate_llm_prompt state_name user_data = Raise e ->
      exn_cls e = KeyError /\
      user_data !! exn_msg e = None /\
      exists before after : list string,
        ["goal"; "screen_time"; "sleep_hours"; "productivity_score"]
        = (before ++ exn_msg e :: after)%list /\
        forall k : string, k ∈ before -> is_Some (user_data !! k)).
Proof.
  pose proof (prompt_keys_read state_name user_data) as H.
  destruct (user_data !! "goal") as [v1|] eqn:E1;
    [destruct (user_data !! "screen_time") as [v2|] eqn:E2;
     [destruct (user_data !! "sleep_hours") as [v3|] eqn:E3;
      [destruct (user_data !! "productivity_score") as [v4|] eqn:E4|]|]|].
  - destruct H as [p Hp]. split.
    + split; [|by exists p]. intros _ k Hk.
      rewrite !elem_of_cons, elem_of_nil in Hk.
      destruct Hk as [->|[->|[->|[->|[]]]]]; eauto.
    + intros e He. congruence.
  - split.
    + split; [intros [p Hp]; congruence|]. intros Hall.
      destruct (Hall "productivity_score") as [v Hv]; [compute_done|congruence].
    + intros e He. rewrite H in He. injection He as <-. simpl.
      split_and!; try done.
      exists ["goal"; "screen_time"; "sleep_hours"], []. split; [done|].
      intros k Hk. rewrite !elem_of_cons, elem_of_nil in Hk.
      destruct Hk as [->|[->|[->|[]]]]; eauto.
  - split.
    + split; [intros [p Hp]; congruence|]. intros Hall.
      destruct (Hall "sleep_hours") as [v Hv]; [compute_done|congruence].
    + intros e He. rewrite H in He. injection He as <-. simpl.
      split_and!; try done.
      exists ["goal"; "screen_time"], ["productivity_score"]. split; [done|].
      intros k Hk. rewrite !elem_of_cons, elem_of_nil in Hk.
      destruct Hk as [->|[->|[]]]; eauto.
  - split.
    + split; [intros [p Hp]; congruence|]. intros Hall.
      destruct (Hall "screen_time") as [v Hv]; [compute_done|congruence].
    + intros e He. rewrite H in He. injection He as <-. simpl.
      split_and!; try done.
      exists ["goal"], ["sleep_hours"; "productivity_score"]. split; [done|].
      intros k Hk. rewrite !elem_of_cons, elem_of_nil in Hk.
      destruct Hk as [->|[]]; eauto.
  - split.
    + split; [intros [p Hp]; congruence|]. intros Hall.
      destruct (Hall "goal") as [v Hv]; [compute_done|congruence].
    + intros e He. rewrite H in He. injection He as <-. simpl.
      split_and!; try done.
      exists [], ["screen_time"; "sleep_hours"; "productivity_score"].
      split; [done|]. intros k Hk. by apply elem_of_nil in Hk.
Qed.

Lemma analysis_returns (g : Globals) (inputs : Inputs) :
  exists v : View,
    analysis g inputs = Ok v /\
    match v with
    | ErrorView s =>
        failure_sentinel s /\
        classify_rhythm_state g (sleep_hours inputs) (screen_time_in inputs)
          (productivity_score inputs) = Ok s
    | ResultsView s info =>
        state_label s /\ RHYTHM_STATES !! s = Some info /\
        classify_rhythm_state g (sleep_hours inputs) (screen_time_in inputs)
          (productivity_score inputs) = Ok s
    end.
Proof.
  unfold analysis.
  destruct (classify_returns g (sleep_hours inputs) (screen_time_in inputs)
              (productivity_score inputs)) as (s & Hc & Hs).
  rewrite Hc. simpl. destruct Hs as [Hs|Hl].
  - rewrite (sentinel_is_error s Hs). by exists (ErrorView s).
  - rewrite (label_is_not_error s Hl).
    destruct (label_has_styling s Hl) as [info Hinfo].
    exists (ResultsView s info). unfold getitem. rewrite Hinfo. by simpl.
Qed.

(** X13: on the way from the classification to the prompt the fallback to
    the "Unknown State" entry is never taken: whenever the analysis gets
    past the error test, the state is a label of the classifier's table and
    the details the prompt uses are the very entry the page is styled
    with. *)
Theorem prompt_details_are_the_page_styling (g : Globals) (inputs : Inputs)
    (state_name : string) (state_info : StateInfo) :
  analysis g inputs = Ok (ResultsView state_name state_info) ->
  state_label state_name /\
  state_details_of state_name = Ok state_info.
Proof.
  intros Ha. destruct (analysis_returns g inputs) as (v & Hv & Hcase).
  rewrite Ha in Hv. injection Hv as <-. destruct Hcase as (Hl & Hinfo & _).
  split; [exact Hl|].
  unfold state_details_of. rewrite getitem_unknown_state. prompt_reduce.
  by rewrite Hinfo.
Qed.

Lemma prompt_details_are_the_page_styling_witness :
  state_label "Flow State" /\
  state_details_of "Flow State"
  = Ok {| productivity := "High"; screen_time := "Low"; sleep := "High";
          color := "#00A39C"; icon := "‚ö°" |}.
Proof.
  apply (prompt_details_are_the_page_styling fixtures.ready fixtures.morning).
  reflexivity.
Defined.

(** * Properties of the script's runs *)

Import app_flow.

Section runs.

Variable format_float format_int : Q -> string.
Variable g : Globals.

Abbreviation user_data_of := (app_flow.user_data_of format_float format_int).
Abbreviation run := (app_flow.run format_float format_int g).
Abbreviation interaction := (app_flow.interaction format_float format_int g).
Abbreviation session := (app_flow.session format_float format_int g).
Abbreviation analysis_outcome :=
  (analysis_outcome format_float format_int g).
Abbreviation shown_analysis := (shown_analysis format_float format_int g).

Lemma prompt_of_stored (state_name : string) (inputs : RenderedInputs) :
  exists p : string,
    generate_llm_prompt state_name (user_data_of inputs) = Ok p.
Proof.
  pose proof (prompt_keys_read state_name (user_data_of inputs)) as H.
  unfold app_flow.user_data_of in *.
  rewrite !lookup_insert_ne in H by done.
  rewrite ?lookup_insert_eq in H.
  rewrite !(lookup_insert_ne _ "sleep_hours") in H by done.
  rewrite ?lookup_insert_eq in H.
  exact H.
Qed.

Lemma init_flags_settled (ss : SessionState) :
  settled ss -> init_flags ss = ss.
Proof.
  destruct ss as [ac ie ui]. unfold settled, at_inputs, analysed, init_flags.
  simpl. intros [[-> ->]|(stored & -> & -> & _)]; reflexivity.
Qed.

Lemma init_flags_start (ss : SessionState) :
  ss = fresh \/ at_inputs ss -> at_inputs (init_flags ss).
Proof.
  intros [->|[Ha He]]; unfold at_inputs, init_flags; simpl; [done|].
  by rewrite Ha, He.
Qed.

Lemma pressed_rerun (ev : Event) (b : Button) :
  pressed (rerun_event ev) b = false.
Proof. reflexivity. Qed.

Lemma pressed_click (ev : Event) (b b' : Button) :
  click ev = Some b -> pressed ev b' = bool_decide (b = b').
Proof.
  intros H. unfold pressed. rewrite H.
  apply bool_decide_ext. split; congruence.
Qed.

(** A run with the inputs in full view. *)
Lemma run_at_inputs (ss : SessionState) (ev : Event) :
  at_inputs ss ->
  run ss ev
  = Ok (if pressed ev analyze_btn
        then {| session_after := store_inputs ss (render_input_ui ev);
                ending := Rerun |}
        else {| session_after := ss; ending := Completed InputsOnly |}).
Proof.
  intros Hs. unfold app_flow.run.
  rewrite (init_flags_settled ss) by (by left).
  destruct Hs as [Ha He]. unfold input_section, analysis_section.
  rewrite Ha, He. simpl.
  destruct (pressed ev analyze_btn); simpl; rewrite ?Ha; reflexivity.
Qed.

Lemma analysis_section_stored (ss : SessionState) (ev : Event)
    (stored : RenderedInputs) :
  ss_analyze_clicked ss = Some true ->
  exists r : RunResult,
    analysis_section format_float format_int g ss ev (Some stored) = Ok r /\
    analysis_outcome ss ev stored r.
Proof.
  intros Ha. unfold analysis_section. rewrite Ha. simpl.
  destruct (analysis_returns g (values stored)) as (v & -> & Hv). simpl.
  destruct v as [s|s info].
  - destruct Hv as [Hs Hc].
    exists (if pressed ev error_modify_btn
            then {| session_after := back_to_inputs ss; ending := Rerun |}
            else {| session_after := ss;
                    ending := Stopped (ClassificationFailed s) |}).
    split; [by destruct (pressed ev error_modify_btn)|].
    left. by exists s.
  - destruct Hv as (Hl & Hinfo & Hc).
    destruct (prompt_of_stored s stored) as [p Hp]. rewrite Hp. simpl.
    eexists. split; [reflexivity|]. right. by exists s, info, p.
Qed.

(** A run with an analysis on the page. *)
Lemma run_analysed (ss : SessionState) (stored : RenderedInputs) (ev : Event) :
  analysed ss stored ->
  (pressed ev analyze_btn = true /\
   run ss ev = Ok {| session_after := store_inputs ss (render_input_ui ev);
                     ending := Rerun |}) \/
  (pressed ev analyze_btn = false /\ pressed ev uncollapse_btn = true /\
   run ss ev = Ok {| session_after := back_to_inputs ss; ending := Rerun |}) \/
  (pressed ev analyze_btn = false /\ pressed ev uncollapse_btn = false /\
   exists r : RunResult, run ss ev = Ok r /\ analysis_outcome ss ev stored r).
Proof.
  intros Hs. unfold app_flow.run.
  rewrite (init_flags_settled ss) by (right; by exists stored).
  destruct Hs as (Ha & He & Hu). unfold input_section.
  rewrite Ha, He, Hu. simpl.
  destruct (pressed ev analyze_btn); [by left|right].
  destruct (pressed ev uncollapse_btn); [by left|right].
  split_and!; try done. by apply analysis_section_stored.
Qed.

Lemma run_init_flags (ss : SessionState) (ev : Event) :
  run ss ev = run (init_flags ss) ev.
Proof. by destruct ss as [[?|] [?|] ?]. Qed.

Lemma store_inputs_analysed (ss : SessionState) (inputs : RenderedInputs) :
  analysed (store_inputs ss inputs) inputs.
Proof. by split_and!. Qed.

Lemma back_to_inputs_at_inputs (ss : SessionState) :
  at_inputs (back_to_inputs ss).
Proof. by split. Qed.

(** Without a click the analysis of stored inputs stays on the page. *)
Lemma outcome_without_click (ss : SessionState) (ev : Event)
    (stored : RenderedInputs) (r : RunResult) :
  pressed ev error_modify_btn = false ->
  pressed ev new_analysis_btn = false ->
  pressed ev api_error_modify_btn = false ->
  analysis_outcome ss ev stored r ->
  shown_analysis ss stored (respond ev) r.
Proof.
  intros P1 P2 P3 [(s & Hc & Hs & ->)|(s & info & p & Hc & Hl & Hi & Hp & ->)].
  - rewrite P1. split; [done|]. exists s. split; [done|]. by left.
  - unfold results_section. rewrite P2, P3.
    destruct (respond ev p) as [answer|e] eqn:Er; (split; [done|]);
      exists s; (split; [done|]); right; exists info, p;
      split_and!; try done; [left|right]; eauto.
Qed.

(** The run after [st.rerun()], when the inputs are in full view. *)
Lemma rerun_at_inputs (ss : SessionState) (ev : Event) :
  at_inputs ss ->
  run ss (rerun_event ev)
  = Ok {| session_after := ss; ending := Completed InputsOnly |}.
Proof. intros Hs. by rewrite (run_at_inputs ss (rerun_event ev) Hs). Qed.

(** The run after [st.rerun()], when inputs have just been stored. *)
Lemma rerun_analysed (ss : SessionState) (stored : RenderedInputs)
    (ev : Event) :
  analysed ss stored ->
  exists r : RunResult,
    run ss (rerun_event ev) = Ok r /\
    shown_analysis ss stored (respond ev) r.
Proof.
  intros Hs.
  destruct (run_analysed ss stored (rerun_event ev) Hs)
    as [[Hp _]|[(_ & Hp & _)|(_ & _ & r & Hr & Hout)]];
    [discriminate Hp | discriminate Hp |].
  exists r. split; [exact Hr|].
  by apply (outcome_without_click ss (rerun_event ev)).
Qed.

(** What an interaction leads to, from a settled state. *)
Lemma interaction_settled (ss : SessionState) (ev : Event) :
  settled ss ->
  exists r : RunResult,
    interaction ss ev = Ok r /\
    ss_user_inputs (session_after r)
    = (if pressed ev analyze_btn then Some (render_input_ui ev)
       else ss_user_inputs ss) /\
    ((at_inputs (session_after r) /\ ending r = Completed InputsOnly) \/
     (exists stored : RenderedInputs,
         analysed (session_after r) stored /\
         shown_analysis (session_after r) stored (respond ev) r)).
Proof.
  assert (Hstore : forall ss0 : SessionState,
    exists r : RunResult,
      run (store_inputs ss0 (render_input_ui ev)) (rerun_event ev) = Ok r /\
      ss_user_inputs (session_after r) = Some (render_input_ui ev) /\
      exists stored : RenderedInputs,
        analysed (session_after r) stored /\
        shown_analysis (session_after r) stored (respond ev) r).
  { intros ss0.
    destruct (rerun_analysed _ _ ev
                (store_inputs_analysed ss0 (render_input_ui ev)))
      as (r & Hr & Hshown).
    exists r. pose proof Hshown as [Hafter _]. rewrite Hafter.
    split_and!; [done | done |]. exists (render_input_ui ev).
    split; [apply store_inputs_analysed | done]. }
  assert (Hback : forall ss0 : SessionState,
    pressed ev analyze_btn = false ->
    exists r : RunResult,
      run (back_to_inputs ss0) (rerun_event ev) = Ok r /\
      ss_user_inputs (session_after r)
      = (if pressed ev analyze_btn then Some (render_input_ui ev)
         else ss_user_inputs ss0) /\
      at_inputs (session_after r) /\ ending r = Completed InputsOnly).
  { intros ss0 Hp. eexists. split.
    - apply rerun_at_inputs, back_to_inputs_at_inputs.
    - rewrite Hp. by split_and!. }
  intros [Hin|[stored Han]]; unfold app_flow.interaction.
  - rewrite (run_at_inputs ss ev Hin).
    destruct (pressed ev analyze_btn) eqn:Hp; simpl.
    + destruct (Hstore ss) as (r & Hr & Hu & Hshown).
      exists r. split_and!; [done | done | by right].
    + eexists. split; [reflexivity|]. split; [done|]. by left.
  - destruct (run_analysed ss stored ev Han)
      as [[Hp ->]|[(Hp & Hu & ->)|(Hp & Hu & r0 & -> & Hout)]]; simpl.
    + rewrite Hp. destruct (Hstore ss) as (r & Hr & Hui & Hshown).
      exists r. split_and!; [done | done | by right].
    + destruct (Hback ss Hp) as (r & Hr & Hui & Hat & Hend).
      exists r. split_and!; [done | done | by left].
    + rewrite Hp. destruct Han as (Ha & He & Hst).
      destruct Hout
        as [(s & Hc & Hs & ->)|(s & info & p & Hc & Hl & Hi & Hpr & ->)].
      * destruct (pressed ev error_modify_btn) eqn:Pm; simpl.
        -- destruct (Hback ss Hp) as (r & Hr & Hui & Hat & Hend).
           rewrite Hp in Hui. exists r. split_and!; [done | done | by left].
        -- eexists. split; [reflexivity|]. split; [done|]. right.
           exists stored. split; [by split_and!|]. split; [done|].
           exists s. split; [done|]. by left.
      * unfold results_section.
        destruct (respond ev p) as [answer|e] eqn:Er.
        -- destruct (pressed ev new_analysis_btn) eqn:Pn; simpl.
           ++ destruct (Hback ss Hp) as (r & Hr & Hui & Hat & Hend).
              rewrite Hp in Hui. exists r.
              split_and!; [done | done | by left].
           ++ eexists. split; [reflexivity|]. split; [done|]. right.
              exists stored. split; [by split_and!|]. split; [done|].
              exists s. split; [done|]. right. exists info, p.
              split_and!; try done. left. by exists answer.
        -- destruct (pressed ev api_error_modify_btn) eqn:Pn; simpl.
           ++ destruct (Hback ss Hp) as (r & Hr & Hui & Hat & Hend).
              rewrite Hp in Hui. exists r.
              split_and!; [done | done | by left].
           ++ eexists. split; [reflexivity|]. split; [done|]. right.
              exists stored. split; [by split_and!|]. split; [done|].
              exists s. split; [done|]. right. exists info, p.
              split_and!; try done. right. by exists e.
Qed.

Lemma interaction_init_flags (ss : SessionState) (ev : Event) :
  interaction ss ev = interaction (init_flags ss) ev.
Proof. unfold app_flow.interaction. by rewrite run_init_flags. Qed.

Lemma interaction_from (ss : SessionState) (ev : Event) :
  ss = fresh \/ settled ss ->
  exists r : RunResult,
    interaction ss ev = Ok r /\
    ss_user_inputs (session_after r)
    = (if pressed ev analyze_btn then Some (render_input_ui ev)
       else ss_user_inputs ss) /\
    ((at_inputs (session_after r) /\ ending r = Completed InputsOnly) \/
     (exists stored : RenderedInputs,
         analysed (session_after r) stored /\
         shown_analysis (session_after r) stored (respond ev) r)).
Proof.
  intros [->|Hs]; [|by apply interaction_settled].
  rewrite interaction_init_flags.
  apply (interaction_settled (init_flags fresh) ev). left. by split.
Qed.

Lemma shown_analysis_not_rerun (ss : SessionState) (stored : RenderedInputs)
    (respond : string -> result (gmap string string)) (r : RunResult) :
  shown_analysis ss stored respond r -> ending r <> Rerun.
Proof.
  intros (_ & s & _ & [[_ ->]|(info & p & _ & _ & _ &
    [(a & _ & ->)|(e & _ & ->)])]); discriminate.
Qed.

(** X14: whatever the user does, and whatever the classifier and the
    generation service do, no exception leaves the script, one rerun at most
    is asked for, and the page ends either on the inputs alone, nothing
    being analysed, or on an analysis of the stored inputs: the
    classification's failure, the cards, or the service's failure, with the
    classification kept. *)
Theorem interaction_ends_settled (ss : SessionState) (ev : Event) :
  ss = fresh \/ settled ss ->
  exists r : RunResult,
    interaction ss ev = Ok r /\
    ending r <> Rerun /\
    settled (session_after r) /\
    ((at_inputs (session_after r) /\ ending r = Completed InputsOnly) \/
     (exists stored : RenderedInputs,
         analysed (session_after r) stored /\
         shown_analysis (session_after r) stored (respond ev) r)).
Proof.
  intros Hs. destruct (interaction_from ss ev Hs) as (r & Hr & _ & Hcase).
  exists r. split_and!; try done.
  - destruct Hcase as [[_ ->]|(stored & _ & Hshown)]; [discriminate|].
    by apply (shown_analysis_not_rerun _ _ _ _ Hshown).
  - destruct Hcase as [[Hat _]|(stored & Han & _)]; [by left|right; eauto].
Qed.

Lemma session_from (evs : list Event) :
  forall ss : SessionState,
    ss = fresh \/ settled ss ->
    exists ss' : SessionState,
      session ss evs = Ok ss' /\
      (ss' = fresh \/ settled ss') /\
      ss_user_inputs ss' = last_analyzed evs (ss_user_inputs ss).
Proof.
  induction evs as [|ev evs IH]; intros ss Hs; simpl.
  - exists ss. by split_and!.
  - destruct (interaction_from ss ev Hs) as (r & -> & Hu & Hcase). simpl.
    destruct (IH (session_after r)) as (ss' & Hss & Hset & Hlast).
    { right. destruct Hcase as [[Hat _]|(stored & Han & _)];
        [by left|right; eauto]. }
    exists ss'. split_and!; try done. by rewrite Hlast, Hu.
Qed.

(** X15: an analysis on the page is always that of the inputs as they were
    at the last click on "analyze rhythm": after any actions from a fresh
    session, the next action ends on the inputs alone or on an analysis of
    exactly those inputs, whatever the widgets hold by then. *)
Theorem analysis_is_of_last_analyzed_inputs (evs : list Event) (ev : Event) :
  exists (ss : SessionState) (r : RunResult),
    session fresh evs = Ok ss /\
    interaction ss ev = Ok r /\
    ss_user_inputs (session_after r) = last_analyzed (evs ++ [ev]) None /\
    ((at_inputs (session_after r) /\ ending r = Completed InputsOnly) \/
     (exists stored : RenderedInputs,
         last_analyzed (evs ++ [ev]) None = Some stored /\
         analysed (session_after r) stored /\
         shown_analysis (session_after r) stored (respond ev) r)).
Proof.
  destruct (session_from evs fresh) as (ss & Hss & Hset & Hlast); [by left|].
  destruct (interaction_from ss ev Hset) as (r & Hr & Hu & Hcase).
  assert (ss_user_inputs (session_after r) = last_analyzed (evs ++ [ev]) None)
    as Hall.
  { rewrite Hu, Hlast. clear.
    change (ss_user_inputs fresh) with (@None RenderedInputs).
    generalize (@None RenderedInputs).
    induction evs as [|e evs IH]; intros o; simpl; [done|]. apply IH. }
  exists ss, r. split_and!; try done.
  destruct Hcase as [Hat|(stored & Han & Hshown)]; [by left|right].
  exists stored. split_and!; try done.
  rewrite <- Hall. by destruct Han as (_ & _ & ->).
Qed.

Lemma interaction_back (ss : SessionState) (ev : Event) :
  run ss ev = Ok {| session_after := back_to_inputs ss; ending := Rerun |} ->
  interaction ss ev
  = Ok {| session_after := back_to_inputs ss;
          ending := Completed InputsOnly |}.
Proof.
  intros Hr. unfold app_flow.interaction. rewrite Hr. simpl.
  apply rerun_at_inputs, back_to_inputs_at_inputs.
Qed.

Lemma interaction_stays (ss : SessionState) (ev : Event) (page : Page) :
  run ss ev = Ok {| session_after := ss; ending := Completed page |} ->
  interaction ss ev = Ok {| session_after := ss; ending := Completed page |}.
Proof. intros Hr. unfold app_flow.interaction. by rewrite Hr. Qed.

(** X16: two ways back to the inputs work whatever happens around them.
    With an analysis on the page, a click on "Un-Collapse Inputs to Main
    View" ends on the inputs in full view, whatever the classifier and the
    generation service would answer; and when the classification of the
    stored inputs fails, so does a click on "Modify Inputs".  The stored
    inputs are kept. *)
Theorem ways_back_that_always_work (ss : SessionState)
    (stored : RenderedInputs) (ev : Event) :
  analysed ss stored ->
  (click ev = Some uncollapse_btn ->
   interaction ss ev
   = Ok {| session_after := back_to_inputs ss;
           ending := Completed InputsOnly |}) /\
  (forall s : string,
      classify_rhythm_state g (sleep_hours (values stored))
        (screen_time_in (values stored))
        (productivity_score (values stored)) = Ok s ->
      failure_sentinel s ->
      click ev = Some error_modify_btn ->
      interaction ss ev
      = Ok {| session_after := back_to_inputs ss;
              ending := Completed InputsOnly |}) /\
  at_inputs (back_to_inputs ss) /\
  ss_user_inputs (back_to_inputs ss) = Some stored.
Proof.
  intros Han. split_and!.
  - intros Hc. apply interaction_back.
    destruct (run_analysed ss stored ev Han)
      as [[Hp _]|[(_ & _ & Hr)|(_ & Hp & _)]];
      rewrite ?(pressed_click ev _ _ Hc) in *; [discriminate|done|discriminate].
  - intros s Hcl Hs Hc. apply interaction_back.
    destruct (run_analysed ss stored ev Han)
      as [[Hp _]|[(_ & Hp & _)|(_ & _ & r0 & Hr & Hout)]];
      rewrite ?(pressed_click ev _ _ Hc) in *; [discriminate|discriminate|].
    rewrite Hr. f_equal.
    destruct Hout
      as [(s' & Hc' & Hs' & ->)|(s' & info & p & Hc' & Hl & _)].
    + by rewrite (pressed_click ev _ _ Hc).
    + rewrite Hcl in Hc'. injection Hc' as <-.
      destruct (sentinel_is_not_label s Hs Hl).
  - apply back_to_inputs_at_inputs.
  - destruct Han as (_ & _ & Hu). exact Hu.
Qed.

(** X17: the two buttons drawn beside the service's answer act only if the
    service answers the same way again, because the run a click triggers
    first calls the service anew.  With cards on the page, "Start New
    Analysis" leads back to the inputs when the new call succeeds, and to
    the service's failure notice, the click being lost, when it fails;
    "Modify Inputs (API Error)" leads back when the new call fails, and to
    the cards when it succeeds. *)
Theorem result_buttons_depend_on_the_new_call (ss : SessionState)
    (stored : RenderedInputs) (ev : Event) (s : string) :
  analysed ss stored ->
  classify_rhythm_state g (sleep_hours (values stored))
    (screen_time_in (values stored))
    (productivity_score (values stored)) = Ok s ->
  state_label s ->
  exists (info : StateInfo) (p : string),
    RHYTHM_STATES !! s = Some info /\
    generate_llm_prompt s (user_data_of stored) = Ok p /\
    (click ev = Some new_analysis_btn ->
     interaction ss ev
     = Ok match respond ev p with
          | Ok _ => {| session_after := back_to_inputs ss;
                       ending := Completed InputsOnly |}
          | Raise e => {| session_after := ss;
                          ending := Completed (ApiFailed s (exn_msg e)) |}
          end) /\
    (click ev = Some api_error_modify_btn ->
     interaction ss ev
     = Ok match respond ev p with
          | Ok answer =>
              {| session_after := ss;
                 ending := Completed
                             (Results s info
                                (default "" (answer !! "insight"))
                                (default "" (answer !! "microbreak"))
                                stored) |}
          | Raise _ => {| session_after := back_to_inputs ss;
                          ending := Completed InputsOnly |}
          end).
Proof.
  intros Han Hcl Hl.
  assert (forall b : Button,
    click ev = Some b -> b <> analyze_btn -> b <> uncollapse_btn ->
    exists (info : StateInfo) (p : string),
      RHYTHM_STATES !! s = Some info /\
      generate_llm_prompt s (user_data_of stored) = Ok p /\
      run ss ev = Ok (results_section ss ev s info p stored)) as Hrun.
  { intros b Hc Hb1 Hb2.
    destruct (run_analysed ss stored ev Han)
      as [[Hp _]|[(_ & Hp & _)|(_ & _ & r0 & Hr & Hout)]];
      rewrite ?(pressed_click ev _ _ Hc) in *;
      [by apply bool_decide_eq_true in Hp
      |by apply bool_decide_eq_true in Hp|].
    destruct Hout
      as [(s' & Hc' & Hs' & _)|(s' & info & p & Hc' & _ & Hi & Hp & ->)];
      rewrite Hcl in Hc'; injection Hc' as <-.
    - destruct (sentinel_is_not_label s Hs' Hl).
    - by exists info, p. }
  destruct (label_has_styling s Hl) as [info Hinfo].
  destruct (prompt_of_stored s stored) as [p Hp].
  exists info, p. split_and!; try done.
  - intros Hc. destruct (Hrun _ Hc) as (info' & p' & Hi' & Hp' & Hr);
      [done | done |].
    rewrite Hp in Hp'. injection Hp' as <-.
    rewrite Hinfo in Hi'. injection Hi' as <-.
    unfold results_section in Hr. rewrite !(pressed_click ev _ _ Hc) in Hr.
    destruct (respond ev p) as [answer|e].
    + by apply interaction_back.
    + by apply interaction_stays.
  - intros Hc. destruct (Hrun _ Hc) as (info' & p' & Hi' & Hp' & Hr);
      [done | done |].
    rewrite Hp in Hp'. injection Hp' as <-.
    rewrite Hinfo in Hi'. injection Hi' as <-.
    unfold results_section in Hr. rewrite !(pressed_click ev _ _ Hc) in Hr.
    destruct (respond ev p) as [answer|e].
    + by apply interaction_stays.
    + by apply interaction_back.
Qed.

End runs.

Lemma interaction_ends_settled_witness :
  exists r : RunResult,
    app_flow.interaction flow_fixtures.show_float flow_fixtures.show_int
      fixtures.ready fresh
      (flow_fixtures.event (Some analyze_btn) flow_fixtures.answering)
    = Ok r /\
    ending r <> Rerun /\
    settled (session_after r) /\
    ((at_inputs (session_after r) /\ ending r = Completed InputsOnly) \/
     (exists stored : RenderedInputs,
         analysed (session_after r) stored /\
         shown_analysis flow_fixtures.show_float flow_fixtures.show_int
           fixtures.ready (session_after r) stored
           (respond
              (flow_fixtures.event (Some analyze_btn)
                 flow_fixtures.answering)) r)).
Proof.
  apply (interaction_ends_settled flow_fixtures.show_float
           flow_fixtures.show_int fixtures.ready fresh).
  by left.
Defined.

Lemma ways_back_that_always_work_witness :
  (click (flow_fixtures.event (Some uncollapse_btn) flow_fixtures.unavailable)
   = Some uncollapse_btn ->
   app_flow.interaction flow_fixtures.show_float flow_fixtures.show_int
     fixtures.unfitted_model flow_fixtures.analysed_session
     (flow_fixtures.event (Some uncollapse_btn) flow_fixtures.unavailable)
   = Ok {| session_after := back_to_inputs flow_fixtures.analysed_session;
           ending := Completed InputsOnly |}) /\
  (forall s : string,
      classify_rhythm_state fixtures.unfitted_model
        (sleep_hours (values flow_fixtures.stored))
        (screen_time_in (values flow_fixtures.stored))
        (productivity_score (values flow_fixtures.stored)) = Ok s ->
      failure_sentinel s ->
      click (flow_fixtures.event (Some uncollapse_btn)
               flow_fixtures.unavailable) = Some error_modify_btn ->
      app_flow.interaction flow_fixtures.show_float flow_fixtures.show_int
        fixtures.unfitted_model flow_fixtures.analysed_session
        (flow_fixtures.event (Some uncollapse_btn) flow_fixtures.unavailable)
      = Ok {| session_after := back_to_inputs flow_fixtures.analysed_session;
              ending := Completed InputsOnly |}) /\
  at_inputs (back_to_inputs flow_fixtures.analysed_session) /\
  ss_user_inputs (back_to_inputs flow_fixtures.analysed_session)
  = Some flow_fixtures.stored.
Proof.
  apply (ways_back_that_always_work flow_fixtures.show_float
           flow_fixtures.show_int fixtures.unfitted_model
           flow_fixtures.analysed_session flow_fixtures.stored).
  by split_and!.
Defined.

Lemma result_buttons_depend_on_the_new_call_witness :
  exists (info : StateInfo) (p : string),
    RHYTHM_STATES !! "Flow State" = Some info /\
    generate_llm_prompt "Flow State"
      (app_flow.user_data_of flow_fixtures.show_float flow_fixtures.show_int
         flow_fixtures.stored) = Ok p /\
    (click (flow_fixtures.event (Some new_analysis_btn)
              flow_fixtures.unavailable) = Some new_analysis_btn ->
     app_flow.interaction flow_fixtures.show_float flow_fixtures.show_int
       fixtures.ready flow_fixtures.analysed_session
       (flow_fixtures.event (Some new_analysis_btn) flow_fixtures.unavailable)
     = Ok match flow_fixtures.unavailable p with
          | Ok _ =>
              {| session_after :=
                   back_to_inputs flow_fixtures.analysed_session;
                 ending := Completed InputsOnly |}
          | Raise e =>
              {| session_after := flow_fixtures.analysed_session;
                 ending := Completed (ApiFailed "Flow State" (exn_msg e)) |}
          end) /\
    (click (flow_fixtures.event (Some new_analysis_btn)
              flow_fixtures.unavailable) = Some api_error_modify_btn ->
     app_flow.interaction flow_fixtures.show_float flow_fixtures.show_int
       fixtures.ready flow_fixtures.analysed_session
       (flow_fixtures.event (Some new_analysis_btn) flow_fixtures.unavailable)
     = Ok match flow_fixtures.unavailable p with
          | Ok answer =>
              {| session_after := flow_fixtures.analysed_session;
                 ending := Completed
                             (Results "Flow State" info
                                (default "" (answer !! "insight"))
                                (default "" (answer !! "microbreak"))
                                flow_fixtures.stored) |}
          | Raise _ =>
              {| session_after :=
                   back_to_inputs flow_fixtures.analysed_session;
                 ending := Completed InputsOnly |}
          end).
Proof.
  apply (result_buttons_depend_on_the_new_call flow_fixtures.show_float
           flow_fixtures.show_int fixtures.ready
           flow_fixtures.analysed_session flow_fixtures.stored
           (flow_fixtures.event (Some new_analysis_btn)
              flow_fixtures.unavailable) "Flow State").
  - by split_and!.
  - reflexivity.
  - by exists 1.
Defined.
